(** * DateHelpers: the date arithmetic of the date picker

    A shallow embedding of [src/datepicker/utils/date-helpers.js].  The class
    [DateHelpers<T>] is generic in a date type [T] and delegates every
    primitive operation to an injected [DateIOAdapter<T>]; here the adapter is
    a type class, the helpers are functions over any instance of it, and a
    concrete UTC adapter over epoch milliseconds is used to run the helpers on
    actual dates. *)

From Stdlib Require Import ZArith QArith List String Ascii Bool Lia.
From Stdlib Require Import DecimalString DecimalN.
Import ListNotations.

Local Open Scope string_scope.
Local Open Scope list_scope.
Local Open Scope Z_scope.

(** ** The fragment of JavaScript the helpers rely on *)

Module Js.

(** A JS [number] where the code can meet one that is not an integer count:
    [Number(string)] is [NaN] on a string that is no numeral. *)
Inductive number : Type :=
| Num (z : Z)
| NaN.

Definition sub (a b : number) : number :=
  match a, b with
  | Num x, Num y => Num (x - y)
  | _, _ => NaN
  end.

(** [Number(s)] on what a day-of-month pattern yields: a string of decimal
    digits is its value and the empty string is [0]; a string with any other
    character is read as [NaN] (signs, fractions, exponents and blanks are
    not modelled). *)
Definition Number (s : string) : number :=
  match NilEmpty.uint_of_string s with
  | Some u => Num (Z.of_N (N.of_uint u))
  | None => NaN
  end.

(** Errors thrown by built-ins. *)
Inductive error : Type :=
| TypeError (message : string).

(** The outcome of a call: a returned value, or a thrown error. *)
Inductive completion (A : Type) : Type :=
| Normal (value : A)
| Throw (e : error).
Arguments Normal {A} value.
Arguments Throw {A} e.

(** [Array.prototype.reduce(callback)] without an initial value: the first
    element seeds the accumulator and the callback receives
    [(accumulator, element)] for every later element, left to right; on an
    empty array it throws a [TypeError]. *)
Definition reduce {A : Type} (callback : A -> A -> A) (array : list A)
  : completion A :=
  match array with
  | [] => Throw (TypeError "Reduce of empty array with no initial value")
  | first :: rest => Normal (fold_left callback rest first)
  end.

(** The values that flow through the [&&] / [||] chains of the helpers:
    an absent operand ([undefined] or [null]) or a boolean. *)
Inductive value : Type :=
| Undefined
| Bool (b : bool).

Definition truthy (v : value) : bool :=
  match v with
  | Bool true => true
  | _ => false
  end.

(** [a || b] yields [a] itself when [a] is truthy, else [b]. *)
Definition or (a b : value) : value := if truthy a then a else b.

(** [x && e] where [x] is an optional object (an array, a function): an
    object is truthy, so the result is [e]; an absent [x] is the result. *)
Definition and_then {A : Type} (x : option A) (e : A -> value) : value :=
  match x with
  | Some a => e a
  | None => Undefined
  end.

(** A JS [Date] object, by its time value: the milliseconds since the
    epoch, or [NaN] for an Invalid Date. *)
Record Date : Type := { time_value : number }.

(** [TimeClip] of ECMAScript: a time farther than 8.64e15 ms from the epoch
    is no time value. *)
Definition TimeClip (t : Z) : number :=
  if (-8640000000000000 <=? t) && (t <=? 8640000000000000)
  then Num t else NaN.

(** [new Date(value)] on an integer number of milliseconds. *)
Definition new_Date (value : Z) : Date := {| time_value := TimeClip value |}.

(** [getUTCHours] and [getUTCMinutes]: [HourFromTime] and [MinFromTime] of
    the time value, [NaN] on an Invalid Date. *)
Definition getUTCHours (d : Date) : number :=
  match time_value d with
  | Num t => Num ((t / 3600000) mod 24)
  | NaN => NaN
  end.

Definition getUTCMinutes (d : Date) : number :=
  match time_value d with
  | Num t => Num ((t / 60000) mod 60)
  | NaN => NaN
  end.

End Js.

Import Js.

(** ** The adapter interface

    [DateIOAdapter<T>] of [./types.js], restricted to the operations the
    helpers call.  Getters return integers; [date None] is [adapter.date()],
    the adapter's reading of the current date, and [date (Some ms)] is
    [adapter.date(ms)]. *)

Class DateIOAdapter (T : Type) : Type := {
  date : option Z -> T;
  toJsDate : T -> Js.Date;
  getSeconds : T -> Z;
  getMinutes : T -> Z;
  getHours : T -> Z;
  getMonth : T -> Z;
  getYear : T -> Z;
  getDiff : T -> T -> Z;
  addMonths : T -> Z -> T;
  addDays : T -> number -> T;
  isBefore : T -> T -> bool;
  isAfter : T -> T -> bool;
  isSameDay : T -> T -> bool;
  startOfMonth : T -> T;
  mergeDateAndTime : T -> T -> T;
  setSeconds : T -> Z -> T;
  setYear : T -> Z -> T;
  setMonth : T -> Z -> T;
  formatByString : T -> string -> string
}.

(** The configuration bag the predicates destructure; an absent field
    ([undefined] or [null]) is [None]. *)
Record DateBoundsConfig (T : Type) : Type := {
  minDate : option T;
  maxDate : option T;
  excludeDates : option (list T);
  includeDates : option (list T);
  filterDate : option (T -> bool)
}.
Arguments minDate {T} _.
Arguments maxDate {T} _.
Arguments excludeDates {T} _.
Arguments includeDates {T} _.
Arguments filterDate {T} _.
Arguments Build_DateBoundsConfig {T} _ _ _ _ _.

(** The default [{}] of the destructured parameter. *)
Definition emptyConfig {T : Type} : DateBoundsConfig T :=
  {| minDate := None; maxDate := None; excludeDates := None;
     includeDates := None; filterDate := None |}.

(** Comparison of a quotient with a literal, as [<], [<=], [>], [>=] do. *)
Definition Qltb (x y : Q) : bool := negb (Qle_bool y x).

(** ** The helpers *)

Module DateHelpers.
Section WithAdapter.

Context {T : Type} {adapter : DateIOAdapter T}.

Definition MINUTE : Z := 60.
Definition HOUR : Z := MINUTE * 60.

Definition dateToSeconds (date : T) : Z :=
  let seconds := getSeconds date in
  let minutes := getMinutes date * MINUTE in
  let hours := getHours date * HOUR in
  seconds + minutes + hours.

Definition secondsToHourMinute (seconds : Z) : number * number :=
  let d := toJsDate (date (Some (seconds * 1000))) in
  (getUTCHours d, getUTCMinutes d).

Definition differenceInCalendarMonths (fromDate toDate : T) : Z :=
  let yearDiff := getYear fromDate - getYear toDate in
  let monthDiff := getMonth fromDate - getMonth toDate in
  yearDiff * 12 + monthDiff.

(** The quotient is kept exact: the callers only compare it with [0]. *)
Definition differenceInCalendarDays (fromDate toDate : T) : Q :=
  let msDiff := getDiff fromDate toDate in
  (inject_Z msDiff / 864e5)%Q.

Definition subMonths (date : T) (months : Z) : T :=
  addMonths date (months * -1).

Definition min (dates : list T) : completion T :=
  reduce (fun minDate date => if isBefore date minDate then date else minDate)
         dates.

Definition max (dates : list T) : completion T :=
  reduce (fun maxDate date => if isAfter date maxDate then date else maxDate)
         dates.

Definition getEffectiveMinDate (config : DateBoundsConfig T) : completion T :=
  match includeDates config, minDate config with
  | Some includeDates, Some minDate =>
      (* includeDates && minDate *)
      let minDates :=
        filter (fun includeDate =>
                  Qle_bool 0 (differenceInCalendarDays includeDate minDate))
               includeDates in
      min minDates
  | _, _ =>
      match includeDates config with
      | Some ((_ :: _) as includeDates) =>
          (* includeDates && includeDates.length *)
          min includeDates
      | _ =>
          match minDate config with
          | Some minDate =>
              (* !(includeDates && includeDates.length) && minDate *)
              Normal minDate
          | None => Normal (date None)
          end
      end
  end.

Definition getEffectiveMaxDate (config : DateBoundsConfig T) : completion T :=
  match includeDates config, maxDate config with
  | Some includeDates, Some maxDate =>
      (* includeDates && maxDate *)
      let maxDates :=
        filter (fun includeDate =>
                  Qle_bool (differenceInCalendarDays includeDate maxDate) 0)
               includeDates in
      max maxDates
  | _, _ =>
      match includeDates config with
      | Some includeDates =>
          (* includeDates: an array, even an empty one, is truthy *)
          max includeDates
      | None =>
          match maxDate config with
          | Some maxDate =>
              (* !includeDates && maxDate *)
              Normal maxDate
          | None => Normal (date None)
          end
      end
  end.

Definition monthDisabledBefore (day : T) (config : DateBoundsConfig T)
  : bool :=
  let previousMonth := subMonths day 1 in
  match minDate config with
  | Some minDate => 0 <? differenceInCalendarMonths minDate previousMonth
  | None => false
  end
  || match includeDates config with
     | Some includeDates =>
         forallb (fun includeDate =>
                    0 <? differenceInCalendarMonths includeDate previousMonth)
                 includeDates
     | None => false
     end
  || false.

Definition monthDisabledAfter (day : T) (config : DateBoundsConfig T)
  : bool :=
  let nextMonth := addMonths day 1 in
  match maxDate config with
  | Some maxDate => 0 <? differenceInCalendarMonths nextMonth maxDate
  | None => false
  end
  || match includeDates config with
     | Some includeDates =>
         forallb (fun includeDate =>
                    0 <? differenceInCalendarMonths nextMonth includeDate)
                 includeDates
     | None => false
     end
  || false.

Definition setDate (date : T) (dayNumber : number) : T :=
  let startOfMonthNoTime := startOfMonth date in
  let startOfMonthHoursAndMinutes :=
    mergeDateAndTime startOfMonthNoTime date in
  let startOfMonth :=
    setSeconds startOfMonthHoursAndMinutes (getSeconds date) in
  addDays startOfMonth (Js.sub dayNumber (Num 1)).

Definition applyDateToTime (time : option T) (date : T) : T :=
  match time with
  | None => date
  | Some time =>
      let yearNumber := getYear date in
      let monthNumber := getMonth date in
      let dayNumber := Number (formatByString date "d") in
      let yearDate := setYear time yearNumber in
      let monthDate := setMonth yearDate monthNumber in
      setDate monthDate dayNumber
  end.

Definition isOutOfBounds (day : T) (config : DateBoundsConfig T) : bool :=
  match minDate config with
  | Some minDate => Qltb (differenceInCalendarDays day minDate) 0
  | None => false
  end
  || match maxDate config with
     | Some maxDate => Qltb 0 (differenceInCalendarDays day maxDate)
     | None => false
     end.

Definition isDayDisabled (day : T) (config : DateBoundsConfig T)
  : Js.value :=
  Js.or
    (Js.or
       (Js.or
          (Js.or
             (Bool (isOutOfBounds day
                      {| minDate := minDate config;
                         maxDate := maxDate config;
                         excludeDates := None; includeDates := None;
                         filterDate := None |}))
             (and_then (excludeDates config) (fun excludeDates =>
                Bool (existsb (fun excludeDate => isSameDay day excludeDate)
                              excludeDates))))
          (and_then (includeDates config) (fun includeDates =>
             Bool (negb (existsb (fun includeDate =>
                                    isSameDay day includeDate)
                                 includeDates)))))
       (and_then (filterDate config) (fun filterDate =>
          Bool (negb (filterDate day)))))
    (Bool false).

End WithAdapter.
End DateHelpers.

(** ** A concrete adapter: UTC dates over epoch milliseconds *)

(** The proleptic Gregorian calendar, with 0-based months as [getMonth]
    counts them. *)
Module Civil.

Definition isLeapYear (y : Z) : bool :=
  ((y mod 4 =? 0) && negb (y mod 100 =? 0)) || (y mod 400 =? 0).

Definition daysInMonth (y m : Z) : Z :=
  if m =? 1 then (if isLeapYear y then 29 else 28)
  else if (m =? 3) || (m =? 5) || (m =? 8) || (m =? 10) then 30
  else 31.

Record civil : Type := { year : Z; month : Z; day : Z }.

Definition valid (c : civil) : Prop :=
  0 <= month c <= 11 /\ 1 <= day c <= daysInMonth (year c) (month c).

Definition next_day (c : civil) : civil :=
  if day c <? daysInMonth (year c) (month c)
  then {| year := year c; month := month c; day := day c + 1 |}
  else if month c <? 11
  then {| year := year c; month := month c + 1; day := 1 |}
  else {| year := year c + 1; month := 0; day := 1 |}.

Definition prev_day (c : civil) : civil :=
  if 1 <? day c
  then {| year := year c; month := month c; day := day c - 1 |}
  else if 0 <? month c
  then {| year := year c; month := month c - 1;
          day := daysInMonth (year c) (month c - 1) |}
  else {| year := year c - 1; month := 11; day := 31 |}.

Definition epoch : civil := {| year := 1970; month := 0; day := 1 |}.

(** The civil date [z] days after (before, for negative [z]) the epoch. *)
Definition civil_of_days (z : Z) : civil :=
  match z with
  | Z0 => epoch
  | Zpos p => Pos.iter next_day epoch p
  | Zneg p => Pos.iter prev_day epoch p
  end.

(** Days from the epoch to day [d] of month [m] of year [y]; a month
    outside [0..11] carries into the year and a day outside the month
    carries into the neighbouring months, as [MakeDay] does. *)
Definition days_of_civil (y m d : Z) : Z :=
  let y := y + m / 12 in
  let m := m mod 12 in
  let ys := if m <? 2 then y - 1 else y in
  let mp := if m <? 2 then m + 10 else m - 2 in
  365 * ys + ys / 4 - ys / 100 + ys / 400 + (153 * mp + 2) / 5 + d - 1
  - 719468.

Definition days_of (c : civil) : Z :=
  days_of_civil (year c) (month c) (day c).

(** Days from the first of March to the first of month [m], and the leap
    days up to year [y]: the two tables behind [days_of_civil]. *)
Definition daysBeforeMonth (m : Z) : Z :=
  if m =? 0 then 306 else if m =? 1 then 337 else if m =? 2 then 0
  else if m =? 3 then 31 else if m =? 4 then 61 else if m =? 5 then 92
  else if m =? 6 then 122 else if m =? 7 then 153 else if m =? 8 then 184
  else if m =? 9 then 214 else if m =? 10 then 245 else 275.

Definition leapDays (y : Z) : Z := y / 4 - y / 100 + y / 400.

End Civil.

Module Utc.

Import Civil.

Definition msPerDay : Z := 86400000.

Definition epochDay (t : Z) : Z := t / msPerDay.
Definition timeInDay (t : Z) : Z := t mod msPerDay.
Definition civilOf (t : Z) : civil := civil_of_days (epochDay t).

Definition make (y m d timeOfDay : Z) : Z :=
  days_of_civil y m d * msPerDay + timeOfDay.

Definition getYear (t : Z) : Z := year (civilOf t).
Definition getMonth (t : Z) : Z := month (civilOf t).
Definition getDate (t : Z) : Z := day (civilOf t).
Definition getHours (t : Z) : Z := timeInDay t / 3600000.
Definition getMinutes (t : Z) : Z := (timeInDay t / 60000) mod 60.
Definition getSeconds (t : Z) : Z := (timeInDay t / 1000) mod 60.

Definition addDays (t : Z) (amount : number) : Z :=
  match amount with
  | Num n => t + n * msPerDay
  | NaN => t
  end.

Definition setMonth (t : Z) (m : Z) : Z :=
  let c := civilOf t in
  let y' := year c + m / 12 in
  let m' := m mod 12 in
  make y' m' (Z.min (day c) (daysInMonth y' m')) (timeInDay t).

Definition addMonths (t : Z) (amount : Z) : Z :=
  setMonth t (month (civilOf t) + amount).

Definition setYear (t : Z) (y : Z) : Z :=
  let c := civilOf t in
  make y (month c) (day c) (timeInDay t).

Definition startOfMonth (t : Z) : Z :=
  (epochDay t - (getDate t - 1)) * msPerDay.

Definition mergeDateAndTime (d time : Z) : Z :=
  epochDay d * msPerDay
  + getHours time * 3600000 + getMinutes time * 60000
  + timeInDay d mod 60000.

Definition setSeconds (t : Z) (s : Z) : Z := t + (s - getSeconds t) * 1000.

Definition decimal (z : Z) : string :=
  NilEmpty.string_of_uint (N.to_uint (Z.to_N z)).

Definition formatByString (t : Z) (pattern : string) : string :=
  if String.eqb pattern "d" then decimal (getDate t) else "".

(** Modelled from the spec: an adapter of the capability set of section 3
    (the adapters and [./types.js] are not under [src/]).  Dates are
    milliseconds since the epoch read in UTC; the month is 0-based;
    [addMonths] and [setMonth] keep the day of the month, clamped to the
    target month; [mergeDateAndTime] takes the hours and minutes of its
    second argument; a [NaN] amount leaves a date unchanged; only the
    pattern ["d"] (day of the month, no padding) is formatted;
    [toJsDate] is [new Date] of the milliseconds.  [now] is what
    [adapter.date()] reads from the clock. *)
Definition adapter (now : Z) : DateIOAdapter Z :=
  Build_DateIOAdapter Z
    (* date *) (fun value => match value with Some ms => ms | None => now end)
    (* toJsDate *) new_Date
    getSeconds getMinutes getHours getMonth getYear
    (* getDiff *) (fun a b => a - b)
    addMonths addDays
    (* isBefore *) (fun a b => a <? b)
    (* isAfter *) (fun a b => b <? a)
    (* isSameDay *) (fun a b => epochDay a =? epochDay b)
    startOfMonth mergeDateAndTime setSeconds setYear setMonth
    formatByString.

(** The date [y]-[m]-[d] at midnight, and at [hh]:[mm]:[ss], with the month
    counted from 1 as it is written. *)
Definition ymd (y m d : Z) : Z := make y (m - 1) d 0.
Definition ymd_hms (y m d hh mm ss : Z) : Z :=
  make y (m - 1) d (hh * 3600000 + mm * 60000 + ss * 1000).

End Utc.

Import DateHelpers.

(** ** What the helpers assume of an adapter

    The adapter is an external collaborator; each property below is the part
    of its contract that a result about the helpers rests on.  The UTC adapter
    satisfies all of them. *)

Section Laws.

Context {T : Type} (adapter : DateIOAdapter T).

(** [isBefore] is a strict weak order (dates at the same instant are
    neither before nor after each other) and [isAfter] is its converse. *)
Record OrderLaws : Prop := {
  isBefore_asym : forall a b, isBefore a b = true -> isBefore b a = false;
  isBefore_cotrans : forall a b c,
    isBefore a c = true -> isBefore a b = true \/ isBefore b c = true;
  isAfter_converse : forall a b, isAfter a b = isBefore b a
}.

(** The clock fields are in their ranges. *)
Record ClockLaws : Prop := {
  getHours_range : forall d, 0 <= getHours d < 24;
  getMinutes_range : forall d, 0 <= getMinutes d < 60;
  getSeconds_range : forall d, 0 <= getSeconds d < 60
}.

(** [adapter.date(ms)] reads [ms] as milliseconds since the UTC epoch,
    for every [ms] a [Date] can hold. *)
Definition UtcEpochBased : Prop :=
  forall ms,
    -8640000000000000 <= ms <= 8640000000000000 ->
    time_value (toJsDate (date (Some ms))) = Num ms.

(** Beyond what a [Date] can hold, [adapter.date(ms)] is an Invalid Date. *)
Definition InvalidBeyondDateRange : Prop :=
  forall ms,
    ms < -8640000000000000 \/ 8640000000000000 < ms ->
    time_value (toJsDate (date (Some ms))) = NaN.

(** [getDiff] is the difference of the instants, in milliseconds. *)
Definition DiffOfInstants (epochMs : T -> Z) : Prop :=
  forall a b, getDiff a b = epochMs a - epochMs b.

(** The day of the month as [applyDateToTime] reads it. *)
Definition dayOfMonth (d : T) : number := Number (formatByString d "d").

(** The calendar operations [setDate] is built from; [dim y m] is the
    number of days of month [m] of year [y]. *)
Record CalendarLaws (dim : Z -> Z -> Z) : Prop := {
  startOfMonth_day : forall d, dayOfMonth (startOfMonth d) = Num 1;
  startOfMonth_month : forall d, getMonth (startOfMonth d) = getMonth d;
  startOfMonth_year : forall d, getYear (startOfMonth d) = getYear d;
  merge_day : forall d t, dayOfMonth (mergeDateAndTime d t) = dayOfMonth d;
  merge_month : forall d t, getMonth (mergeDateAndTime d t) = getMonth d;
  merge_year : forall d t, getYear (mergeDateAndTime d t) = getYear d;
  merge_hours : forall d t, getHours (mergeDateAndTime d t) = getHours t;
  merge_minutes : forall d t,
    getMinutes (mergeDateAndTime d t) = getMinutes t;
  setSeconds_seconds : forall d s,
    0 <= s < 60 -> getSeconds (setSeconds d s) = s;
  setSeconds_day : forall d s,
    0 <= s < 60 -> dayOfMonth (setSeconds d s) = dayOfMonth d;
  setSeconds_month : forall d s,
    0 <= s < 60 -> getMonth (setSeconds d s) = getMonth d;
  setSeconds_year : forall d s,
    0 <= s < 60 -> getYear (setSeconds d s) = getYear d;
  setSeconds_hours : forall d s,
    0 <= s < 60 -> getHours (setSeconds d s) = getHours d;
  setSeconds_minutes : forall d s,
    0 <= s < 60 -> getMinutes (setSeconds d s) = getMinutes d;
  addDays_within_month : forall d n k,
    dayOfMonth d = Num n -> 0 <= k ->
    n + k <= dim (getYear d) (getMonth d) ->
    dayOfMonth (addDays d (Num k)) = Num (n + k)
    /\ getMonth (addDays d (Num k)) = getMonth d
    /\ getYear (addDays d (Num k)) = getYear d
    /\ getHours (addDays d (Num k)) = getHours d
    /\ getMinutes (addDays d (Num k)) = getMinutes d
    /\ getSeconds (addDays d (Num k)) = getSeconds d
}.

End Laws.

(** ** Bounds by instant and by calendar day

    [epochMs] places a date on the time line in milliseconds since the epoch.
    The second reading is the one the specification words: strictly before
    or after a bound at calendar-day granularity. *)

Section Bounds.

Context {T : Type} (epochMs : T -> Z).

Definition calendarDay (d : T) : Z := epochMs d / 86400000.
Definition timeOfDay (d : T) : Z := epochMs d mod 86400000.

Definition outsideByInstant (day : T) (config : DateBoundsConfig T) : Prop :=
  (exists m, minDate config = Some m /\ epochMs day < epochMs m)
  \/ (exists M, maxDate config = Some M /\ epochMs M < epochMs day).

Definition outsideByCalendarDay (day : T) (config : DateBoundsConfig T)
  : Prop :=
  (exists m, minDate config = Some m /\ calendarDay day < calendarDay m)
  \/ (exists M, maxDate config = Some M /\ calendarDay M < calendarDay day).

(** The supplied bounds are at the same time of day as [day]. *)
Definition sameTimeOfDay (day : T) (config : DateBoundsConfig T) : Prop :=
  forall b, minDate config = Some b \/ maxDate config = Some b ->
            timeOfDay b = timeOfDay day.

End Bounds.

(** The configurations of the worked scenarios. *)
Definition onlyMinDate {T : Type} (m : T) : DateBoundsConfig T :=
  {| minDate := Some m; maxDate := None; excludeDates := None;
     includeDates := None; filterDate := None |}.

Definition minAndInclude {T : Type} (m : T) (l : list T)
  : DateBoundsConfig T :=
  {| minDate := Some m; maxDate := None; excludeDates := None;
     includeDates := Some l; filterDate := None |}.

Definition maxAndInclude {T : Type} (M : T) (l : list T)
  : DateBoundsConfig T :=
  {| minDate := None; maxDate := Some M; excludeDates := None;
     includeDates := Some l; filterDate := None |}.

(** ** Further parts of the adapter contract *)

Section MoreLaws.

Context {T : Type} (adapter : DateIOAdapter T).

(** The months elapsed since year 0, the quantity
    [differenceInCalendarMonths] subtracts. *)
Definition monthIndex (d : T) : Z := getYear d * 12 + getMonth d.

(** [addMonths] moves the month by the amount, carrying into the year. *)
Definition MonthLaws : Prop :=
  forall d k, monthIndex (addMonths d k) = monthIndex d + k.

(** Every date is on its own day. *)
Definition SameDayReflexive : Prop := forall d, isSameDay d d = true.

(** The calendar fields are in their ranges, and [setYear] and [setMonth]
    change the field they name and keep the clock; [dim y m] is the number
    of days of month [m] of year [y]. *)
Record SetFieldLaws (dim : Z -> Z -> Z) : Prop := {
  getMonth_range : forall d, 0 <= getMonth d <= 11;
  dayOfMonth_range : forall d,
    exists n, dayOfMonth adapter d = Num n
              /\ 1 <= n <= dim (getYear d) (getMonth d);
  setYear_year : forall d y, getYear (setYear d y) = y;
  setYear_hours : forall d y, getHours (setYear d y) = getHours d;
  setYear_minutes : forall d y, getMinutes (setYear d y) = getMinutes d;
  setYear_seconds : forall d y, getSeconds (setYear d y) = getSeconds d;
  setMonth_month : forall d m,
    0 <= m <= 11 -> getMonth (setMonth d m) = m;
  setMonth_year : forall d m,
    0 <= m <= 11 -> getYear (setMonth d m) = getYear d;
  setMonth_hours : forall d m,
    0 <= m <= 11 -> getHours (setMonth d m) = getHours d;
  setMonth_minutes : forall d m,
    0 <= m <= 11 -> getMinutes (setMonth d m) = getMinutes d;
  setMonth_seconds : forall d m,
    0 <= m <= 11 -> getSeconds (setMonth d m) = getSeconds d
}.

End MoreLaws.

(** More configurations used to run the helpers. *)
Definition onlyInclude {T : Type} (l : list T) : DateBoundsConfig T :=
  {| minDate := None; maxDate := None; excludeDates := None;
     includeDates := Some l; filterDate := None |}.

Definition minAndMax {T : Type} (m M : T) : DateBoundsConfig T :=
  {| minDate := Some m; maxDate := Some M; excludeDates := None;
     includeDates := None; filterDate := None |}.

Definition onlyMaxDate {T : Type} (M : T) : DateBoundsConfig T :=
  {| minDate := None; maxDate := Some M; excludeDates := None;
     includeDates := None; filterDate := None |}.

Definition onlyExclude {T : Type} (l : list T) : DateBoundsConfig T :=
  {| minDate := None; maxDate := None; excludeDates := Some l;
     includeDates := None; filterDate := None |}.

(** ** Comparing a day difference with zero *)

Section DayDifferenceSign.

Context {T : Type} {adapter : DateIOAdapter T}.

Lemma differenceInCalendarDays_nonneg (a b : T) :
  Qle_bool 0 (differenceInCalendarDays a b) = (0 <=? getDiff a b).
Proof.
  unfold differenceInCalendarDays, Qle_bool, Qdiv, Qmult, Qinv, inject_Z.
  simpl.
  destruct (Z.leb_spec 0 (getDiff a b * 1 * 1)),
           (Z.leb_spec 0 (getDiff a b)); lia.
Qed.

Lemma differenceInCalendarDays_nonpos (a b : T) :
  Qle_bool (differenceInCalendarDays a b) 0 = (getDiff a b <=? 0).
Proof.
  unfold differenceInCalendarDays, Qle_bool, Qdiv, Qmult, Qinv, inject_Z.
  simpl.
  destruct (Z.leb_spec (getDiff a b * 1 * 1) 0),
           (Z.leb_spec (getDiff a b) 0); lia.
Qed.

Lemma differenceInCalendarDays_neg (a b : T) :
  Qltb (differenceInCalendarDays a b) 0 = (getDiff a b <? 0).
Proof.
  unfold Qltb. rewrite differenceInCalendarDays_nonneg.
  rewrite Z.ltb_antisym. reflexivity.
Qed.

Lemma differenceInCalendarDays_pos (a b : T) :
  Qltb 0 (differenceInCalendarDays a b) = (0 <? getDiff a b).
Proof.
  unfold Qltb. rewrite differenceInCalendarDays_nonpos.
  rewrite Z.ltb_antisym. reflexivity.
Qed.

End DayDifferenceSign.

(** ** The reduction behind [min] and [max] *)

Section Reduce.

Context {A : Type} (lt : A -> A -> bool).
Hypothesis lt_asym : forall a b, lt a b = true -> lt b a = false.
Hypothesis lt_cotrans :
  forall a b c, lt a c = true -> lt a b = true \/ lt b c = true.

Lemma lt_irrefl (a : A) : lt a a = false.
Proof.
  destruct (lt a a) eqn:E; [| reflexivity].
  rewrite (lt_asym _ _ E) in E. discriminate.
Qed.

Lemma lt_trans (a b c : A) : lt a b = true -> lt b c = true -> lt a c = true.
Proof.
  intros Hab Hbc.
  destruct (lt_cotrans b a c Hbc) as [Hba | Hac]; [| exact Hac].
  rewrite (lt_asym _ _ Hab) in Hba. discriminate.
Qed.

(** Folding keeps the running value strictly below everything to its left
    and not above anything seen to its right. *)
Lemma fold_pick_invariant (rest : list A) :
  forall pre acc post,
    Forall (fun x => lt acc x = true) pre ->
    Forall (fun x => lt x acc = false) post ->
    exists pre' r post',
      fold_left (fun acc x => if lt x acc then x else acc) rest acc = r
      /\ pre ++ acc :: post ++ rest = pre' ++ r :: post'
      /\ Forall (fun x => lt r x = true) pre'
      /\ Forall (fun x => lt x r = false) post'.
Proof.
  induction rest as [| x rest IH]; intros pre acc post Hpre Hpost.
  - exists pre, acc, post. rewrite app_nil_r. auto.
  - simpl. destruct (lt x acc) eqn:Hx.
    + destruct (IH (pre ++ acc :: post) x []) as (pre' & r & post' & H).
      * apply Forall_app. split.
        -- eapply Forall_impl; [| exact Hpre]. intros y Hy.
           exact (lt_trans _ _ _ Hx Hy).
        -- constructor; [exact Hx |].
           eapply Forall_impl; [| exact Hpost]. intros y Hy.
           destruct (lt_cotrans _ y _ Hx) as [H | H]; [exact H |].
           congruence.
      * constructor.
      * exists pre', r, post'. simpl in H.
        rewrite <- app_assoc in H. simpl in H. exact H.
    + destruct (IH pre acc (post ++ [x])) as (pre' & r & post' & H).
      * exact Hpre.
      * apply Forall_app. split; [exact Hpost | constructor; auto].
      * exists pre', r, post'.
        rewrite <- app_assoc in H. simpl in H. exact H.
Qed.

Lemma reduce_pick_leftmost (l : list A) :
  l <> [] ->
  exists pre r post,
    reduce (fun acc x => if lt x acc then x else acc) l = Normal r
    /\ l = pre ++ r :: post
    /\ (forall x, In x l -> lt x r = false)
    /\ (forall x, In x pre -> lt r x = true).
Proof.
  destruct l as [| first rest]; [congruence | intros _].
  destruct (fold_pick_invariant rest [] first []) as
    (pre & r & post & Hr & Hl & Hpre & Hpost); [constructor .. |].
  simpl in Hl. exists pre, r, post.
  rewrite Forall_forall in Hpre, Hpost.
  split; [simpl; rewrite Hr; reflexivity |].
  split; [exact Hl |]. split; [| exact Hpre].
  intros x Hin. rewrite Hl in Hin. apply in_app_or in Hin.
  destruct Hin as [Hin | [<- | Hin]].
  - apply lt_asym, Hpre, Hin.
  - apply lt_irrefl.
  - apply Hpost, Hin.
Qed.

End Reduce.

(** ** The calendar behind the UTC adapter *)

Module CivilFacts.

Import Civil.

(** Case analysis on the tests of the calendar functions. *)
Ltac split_cases :=
  repeat match goal with
    | |- context [Z.ltb ?a ?b] => destruct (Z.ltb_spec a b)
    | |- context [Z.eqb ?a ?b] => destruct (Z.eqb_spec a b)
    | |- context [isLeapYear ?y] => destruct (isLeapYear y)
    end.

Lemma daysInMonth_bounds (y m : Z) : 28 <= daysInMonth y m <= 31.
Proof. unfold daysInMonth. split_cases; simpl; lia. Qed.

Lemma epoch_valid : valid epoch.
Proof. unfold valid, epoch, daysInMonth; simpl. lia. Qed.

Lemma next_day_valid (c : civil) : valid c -> valid (next_day c).
Proof.
  destruct c as [y m d]. unfold valid, next_day. simpl. intros [Hm Hd].
  pose proof (daysInMonth_bounds y (m + 1)).
  pose proof (daysInMonth_bounds (y + 1) 0).
  split_cases; simpl; lia.
Qed.

Lemma prev_day_valid (c : civil) : valid c -> valid (prev_day c).
Proof.
  destruct c as [y m d]. unfold valid, prev_day. simpl. intros [Hm Hd].
  pose proof (daysInMonth_bounds y (m - 1)).
  assert (daysInMonth (y - 1) 11 = 31) by reflexivity.
  split_cases; simpl; lia.
Qed.

Lemma next_prev_day (c : civil) : valid c -> next_day (prev_day c) = c.
Proof.
  destruct c as [y m d]. unfold valid, next_day, prev_day. simpl.
  intros [Hm Hd].
  destruct (Z.ltb_spec 1 d); simpl.
  - destruct (Z.ltb_spec (d - 1) (daysInMonth y m)); [| lia].
    f_equal. lia.
  - destruct (Z.ltb_spec 0 m); simpl.
    + rewrite Z.ltb_irrefl.
      destruct (Z.ltb_spec (m - 1) 11); [| lia].
      f_equal; lia.
    + f_equal; lia.
Qed.

Lemma prev_next_day (c : civil) : valid c -> prev_day (next_day c) = c.
Proof.
  destruct c as [y m d]. unfold valid, next_day, prev_day. simpl.
  intros [Hm Hd].
  destruct (Z.ltb_spec d (daysInMonth y m)); simpl.
  - destruct (Z.ltb_spec 1 (d + 1)); [| lia]. f_equal. lia.
  - destruct (Z.ltb_spec m 11); simpl.
    + destruct (Z.ltb_spec 0 (m + 1)); [| lia].
      replace (m + 1 - 1) with m by lia. f_equal. lia.
    + assert (m = 11) as -> by lia.
      replace (y + 1 - 1) with y by lia.
      change (daysInMonth y 11) with 31 in *. f_equal. lia.
Qed.

Lemma civil_of_days_valid (z : Z) : valid (civil_of_days z).
Proof.
  destruct z as [| p | p]; simpl.
  - exact epoch_valid.
  - induction p using Pos.peano_ind.
    + exact (next_day_valid _ epoch_valid).
    + rewrite Pos.iter_succ. exact (next_day_valid _ IHp).
  - induction p using Pos.peano_ind.
    + exact (prev_day_valid _ epoch_valid).
    + rewrite Pos.iter_succ. exact (prev_day_valid _ IHp).
Qed.

Lemma civil_of_days_succ (z : Z) :
  civil_of_days (z + 1) = next_day (civil_of_days z).
Proof.
  destruct z as [| p | p].
  - reflexivity.
  - change (Z.pos p + 1) with (Z.pos (p + 1)). rewrite Pos.add_1_r.
    simpl. apply Pos.iter_succ.
  - destruct (Pos.succ_pred_or p) as [-> | E].
    + reflexivity.
    + rewrite <- E at 2. cbn [civil_of_days]. rewrite Pos.iter_succ.
      rewrite next_prev_day.
      * replace (Z.neg p + 1) with (Z.neg (Pos.pred p)) by lia.
        reflexivity.
      * exact (civil_of_days_valid (Z.neg (Pos.pred p))).
Qed.

Lemma civil_of_days_pred (z : Z) :
  civil_of_days (z - 1) = prev_day (civil_of_days z).
Proof.
  replace z with ((z - 1) + 1) at 2 by lia.
  rewrite civil_of_days_succ, prev_next_day; [reflexivity |].
  apply civil_of_days_valid.
Qed.

(** Moving forward inside a month only changes the day of the month. *)
Lemma civil_of_days_forward (z k : Z) :
  0 <= k ->
  day (civil_of_days z) + k
    <= daysInMonth (year (civil_of_days z)) (month (civil_of_days z)) ->
  civil_of_days (z + k)
  = {| year := year (civil_of_days z); month := month (civil_of_days z);
       day := day (civil_of_days z) + k |}.
Proof.
  intros Hk. revert k Hk.
  apply (natlike_ind (fun k => _ -> civil_of_days (z + k) = _)).
  - intros _. rewrite !Z.add_0_r. destruct (civil_of_days z); reflexivity.
  - intros k Hk IH Hle.
    replace (z + Z.succ k) with (z + k + 1) by lia.
    rewrite civil_of_days_succ, IH by lia.
    unfold next_day. simpl.
    destruct (Z.ltb_spec (day (civil_of_days z) + k)
                (daysInMonth (year (civil_of_days z))
                   (month (civil_of_days z)))); [| lia].
    f_equal. lia.
Qed.

(** Moving backward inside a month only changes the day of the month. *)
Lemma civil_of_days_backward (z k : Z) :
  0 <= k ->
  1 <= day (civil_of_days z) - k ->
  civil_of_days (z - k)
  = {| year := year (civil_of_days z); month := month (civil_of_days z);
       day := day (civil_of_days z) - k |}.
Proof.
  intros Hk. revert k Hk.
  apply (natlike_ind (fun k => _ -> civil_of_days (z - k) = _)).
  - intros _. rewrite !Z.sub_0_r. destruct (civil_of_days z); reflexivity.
  - intros k Hk IH Hle.
    replace (z - Z.succ k) with (z - k - 1) by lia.
    rewrite civil_of_days_pred, IH by lia.
    unfold prev_day. simpl.
    destruct (Z.ltb_spec 1 (day (civil_of_days z) - k)); [| lia].
    f_equal. lia.
Qed.

Lemma isLeapYear_spec (y : Z) :
  isLeapYear y = true <-> (y mod 4 = 0 /\ y mod 100 <> 0) \/ y mod 400 = 0.
Proof.
  unfold isLeapYear.
  rewrite orb_true_iff, andb_true_iff, negb_true_iff, !Z.eqb_eq, Z.eqb_neq.
  reflexivity.
Qed.

(** A year adds one leap day to the count exactly when it is a leap year. *)
Lemma leapDays_succ (y : Z) :
  leapDays y = leapDays (y - 1) + (if isLeapYear y then 1 else 0).
Proof.
  unfold leapDays. pose proof (isLeapYear_spec y) as L.
  destruct (isLeapYear y).
  - destruct (proj1 L eq_refl) as [[H4 H100] | H400];
      Z.div_mod_to_equations; lia.
  - assert (~ ((y mod 4 = 0 /\ y mod 100 <> 0) \/ y mod 400 = 0)) as N
      by (intros H; apply L in H; discriminate).
    Z.div_mod_to_equations; lia.
Qed.

(** Case analysis on the twelve months, with the month tables evaluated. *)
Ltac each_month m :=
  let C := fresh "C" in
  assert (m = 0 \/ m = 1 \/ m = 2 \/ m = 3 \/ m = 4 \/ m = 5 \/ m = 6
          \/ m = 7 \/ m = 8 \/ m = 9 \/ m = 10 \/ m = 11) as C by lia;
  repeat (destruct C as [-> | C]); try subst m;
  repeat match goal with
    | |- context [0 + 1] => change (0 + 1) with 1
    | |- context [Z.pos ?p + 1] =>
        let v := eval cbv in (Z.pos p + 1) in change (Z.pos p + 1) with v
    end;
  cbv [daysInMonth daysBeforeMonth Z.eqb Pos.eqb Z.ltb Z.compare Pos.compare
         Pos.compare_cont orb] in *.

(** [days_of_civil] on a month in range, through the two tables. *)
Lemma days_of_civil_normal (y m d : Z) :
  0 <= m <= 11 ->
  days_of_civil y m d
  = 365 * (if m <? 2 then y - 1 else y)
    + leapDays (if m <? 2 then y - 1 else y)
    + daysBeforeMonth m + d - 1 - 719468.
Proof.
  intros Hm. unfold days_of_civil, leapDays.
  rewrite Z.div_small, Z.mod_small, Z.add_0_r by lia.
  assert ((153 * (if m <? 2 then m + 10 else m - 2) + 2) / 5
          = daysBeforeMonth m) as ->; [| lia].
  clear y d. each_month m; reflexivity.
Qed.

(** The day count and the day stepping agree. *)
Lemma days_of_next_day (c : civil) :
  valid c -> days_of (next_day c) = days_of c + 1.
Proof.
  destruct c as [y m d]. unfold valid, days_of, next_day.
  cbn [year month day]. intros [Hm Hd].
  destruct (Z.ltb_spec d (daysInMonth y m)); cbn [year month day].
  - unfold days_of_civil. lia.
  - assert (d = daysInMonth y m) as -> by lia. clear Hd H.
    destruct (Z.ltb_spec m 11); cbn [year month day];
      rewrite !days_of_civil_normal by lia.
    + pose proof (leapDays_succ y) as Ly.
      each_month m; try lia; destruct (isLeapYear y); lia.
    + assert (m = 11) as -> by lia.
      replace (y + 1 - 1) with y by lia.
      cbv [daysInMonth daysBeforeMonth Z.eqb Pos.eqb Z.ltb Z.compare
             Pos.compare Pos.compare_cont orb].
      lia.
Qed.

Lemma days_of_civil_of_days (z : Z) : days_of (civil_of_days z) = z.
Proof.
  induction z using Z.peano_ind.
  - reflexivity.
  - unfold Z.succ. rewrite civil_of_days_succ, days_of_next_day, IHz.
    + reflexivity.
    + apply civil_of_days_valid.
  - unfold Z.pred.
    pose proof (civil_of_days_succ (z + -1)) as S.
    replace (z + -1 + 1) with z in S by lia.
    rewrite S, days_of_next_day in IHz by apply civil_of_days_valid. lia.
Qed.

Lemma days_of_prev_day (c : civil) :
  valid c -> days_of (prev_day c) = days_of c - 1.
Proof.
  intros V.
  pose proof (days_of_next_day (prev_day c) (prev_day_valid c V)) as H.
  rewrite (next_prev_day c V) in H. lia.
Qed.

(** The epoch is the only valid date with day count [0]. *)
Lemma days_of_epoch_only (c : civil) : valid c -> days_of c = 0 -> c = epoch.
Proof.
  destruct c as [y m d]. unfold valid, days_of. cbn [year month day].
  intros [Hm Hd]. rewrite days_of_civil_normal by lia.
  assert (0 <= daysBeforeMonth m + d - 1 <= 365) as R.
  { clear - Hm Hd. each_month m; try lia; destruct (isLeapYear y); lia. }
  intros E.
  assert ((if m <? 2 then y - 1 else y) = 1969) as Y.
  { set (ys := if m <? 2 then y - 1 else y) in *.
    assert (365 * ys + leapDays ys + (daysBeforeMonth m + d - 1) = 719468)
      as E' by lia.
    revert E' R. generalize (daysBeforeMonth m + d - 1). clear.
    intros r E R. unfold leapDays in E. Z.div_mod_to_equations. lia. }
  rewrite Y in E. change (leapDays 1969) with 477 in E.
  unfold epoch.
  each_month m; try lia; destruct (isLeapYear y); try lia; f_equal; lia.
Qed.

(** [civil_of_days] and [days_of] are inverse on the valid dates. *)
Lemma civil_of_days_of (c : civil) : valid c -> civil_of_days (days_of c) = c.
Proof.
  remember (days_of c) as z eqn:E. revert c E.
  induction z using Z.peano_ind; intros c E V.
  - symmetry. apply days_of_epoch_only; auto.
  - unfold Z.succ. rewrite civil_of_days_succ.
    rewrite (IHz (prev_day c)).
    + apply next_prev_day, V.
    + rewrite days_of_prev_day by exact V. lia.
    + apply prev_day_valid, V.
  - unfold Z.pred. replace (z + -1) with (z - 1) by lia.
    rewrite civil_of_days_pred.
    rewrite (IHz (next_day c)).
    + apply prev_next_day, V.
    + rewrite days_of_next_day by exact V. lia.
    + apply next_day_valid, V.
Qed.

End CivilFacts.

(** ** The UTC adapter keeps the adapter contract *)

Module UtcFacts.
Import Civil CivilFacts Utc.

Lemma epochDay_add (z r : Z) :
  0 <= r < msPerDay -> epochDay (z * msPerDay + r) = z.
Proof.
  unfold epochDay, msPerDay. intros H. symmetry.
  apply (Z.div_unique _ _ z r); lia.
Qed.

Lemma timeInDay_add (z r : Z) :
  0 <= r < msPerDay -> timeInDay (z * msPerDay + r) = r.
Proof.
  unfold timeInDay, msPerDay. intros H. symmetry.
  apply (Z.mod_unique _ _ z r); lia.
Qed.

Lemma split_instant (t : Z) :
  t = epochDay t * msPerDay + timeInDay t /\ 0 <= timeInDay t < msPerDay.
Proof.
  unfold epochDay, timeInDay, msPerDay.
  pose proof (Z.div_mod t 86400000). pose proof (Z.mod_pos_bound t 86400000).
  lia.
Qed.

Lemma getHours_range (t : Z) : 0 <= getHours t < 24.
Proof.
  unfold getHours. destruct (split_instant t) as [_ H]. unfold msPerDay in H.
  split; [apply Z.div_pos; lia | apply Z.div_lt_upper_bound; lia].
Qed.

Lemma getMinutes_range (t : Z) : 0 <= getMinutes t < 60.
Proof. unfold getMinutes. apply Z.mod_pos_bound. lia. Qed.

Lemma getSeconds_range (t : Z) : 0 <= getSeconds t < 60.
Proof. unfold getSeconds. apply Z.mod_pos_bound. lia. Qed.

(** The clock fields of a time of day given by its parts. *)
Lemma clock_of_parts (z h m s ms : Z) :
  0 <= h < 24 -> 0 <= m < 60 -> 0 <= s < 60 -> 0 <= ms < 1000 ->
  let t := z * msPerDay + (h * 3600000 + m * 60000 + s * 1000 + ms) in
  epochDay t = z /\ getHours t = h /\ getMinutes t = m /\ getSeconds t = s
  /\ timeInDay t mod 1000 = ms.
Proof.
  intros Hh Hm Hs Hms t.
  assert (timeInDay t = h * 3600000 + m * 60000 + s * 1000 + ms) as E
    by (apply timeInDay_add; unfold msPerDay; lia).
  split; [apply epochDay_add; unfold msPerDay; lia |].
  unfold getHours, getMinutes, getSeconds. rewrite E.
  repeat split.
  - symmetry. apply (Z.div_unique _ _ h (m * 60000 + s * 1000 + ms)); lia.
  - replace ((h * 3600000 + m * 60000 + s * 1000 + ms) / 60000)
      with (h * 60 + m)
      by (apply (Z.div_unique _ _ _ (s * 1000 + ms)); lia).
    symmetry. apply (Z.mod_unique _ _ h m); lia.
  - replace ((h * 3600000 + m * 60000 + s * 1000 + ms) / 1000)
      with ((h * 60 + m) * 60 + s)
      by (apply (Z.div_unique _ _ _ ms); lia).
    symmetry. apply (Z.mod_unique _ _ (h * 60 + m) s); lia.
  - symmetry. apply (Z.mod_unique _ _ ((h * 60 + m) * 60 + s) ms); lia.
Qed.

(** Every instant is a day and a time of day given by its parts. *)
Lemma instant_parts (t : Z) :
  t = epochDay t * msPerDay
      + (getHours t * 3600000 + getMinutes t * 60000 + getSeconds t * 1000
         + timeInDay t mod 1000).
Proof.
  destruct (split_instant t) as [E H]. rewrite E at 1. f_equal.
  unfold getHours, getMinutes, getSeconds. unfold msPerDay in H.
  generalize dependent (timeInDay t). intros r _ H.
  Z.div_mod_to_equations. lia.
Qed.

Lemma timeInDay_below_minute (t : Z) :
  timeInDay t mod 60000 = getSeconds t * 1000 + timeInDay t mod 1000.
Proof.
  unfold getSeconds. generalize (timeInDay t). intros r.
  Z.div_mod_to_equations. lia.
Qed.

Lemma Number_decimal (z : Z) : 0 <= z -> Number (decimal z) = Num z.
Proof.
  intros Hz. unfold Number, decimal.
  rewrite NilEmpty.usu, DecimalN.Unsigned.of_to. f_equal. lia.
Qed.

Lemma getDate_pos (t : Z) : 1 <= getDate t.
Proof. apply (civil_of_days_valid (epochDay t)). Qed.

Lemma dayOfMonth_getDate (now t : Z) :
  dayOfMonth (adapter now) t = Num (getDate t).
Proof.
  unfold dayOfMonth. cbn [formatByString adapter]. unfold Utc.formatByString.
  simpl String.eqb. cbv iota. apply Number_decimal.
  pose proof (getDate_pos t). lia.
Qed.

Lemma civilOf_startOfMonth (t : Z) :
  civilOf (startOfMonth t)
  = {| year := getYear t; month := getMonth t; day := 1 |}.
Proof.
  unfold civilOf, startOfMonth.
  replace ((epochDay t - (getDate t - 1)) * msPerDay)
    with ((epochDay t - (getDate t - 1)) * msPerDay + 0) by lia.
  rewrite epochDay_add by (unfold msPerDay; lia).
  pose proof (getDate_pos t). unfold getDate, civilOf in *.
  rewrite civil_of_days_backward by lia.
  unfold getYear, getMonth, civilOf. f_equal. lia.
Qed.

Lemma mergeDateAndTime_parts (d time : Z) :
  epochDay (mergeDateAndTime d time) = epochDay d
  /\ getHours (mergeDateAndTime d time) = getHours time
  /\ getMinutes (mergeDateAndTime d time) = getMinutes time.
Proof.
  unfold mergeDateAndTime. rewrite timeInDay_below_minute.
  pose proof (getHours_range time). pose proof (getMinutes_range time).
  pose proof (getSeconds_range d).
  assert (0 <= timeInDay d mod 1000 < 1000) by (apply Z.mod_pos_bound; lia).
  destruct (clock_of_parts (epochDay d) (getHours time) (getMinutes time)
              (getSeconds d) (timeInDay d mod 1000))
    as (E1 & E2 & E3 & _); try assumption.
  rewrite <- !Z.add_assoc in *. rewrite !Z.add_assoc in *.
  replace (epochDay d * msPerDay + getHours time * 3600000
           + getMinutes time * 60000
           + (getSeconds d * 1000 + timeInDay d mod 1000))
    with (epochDay d * msPerDay
          + (getHours time * 3600000 + getMinutes time * 60000
             + getSeconds d * 1000 + timeInDay d mod 1000)) by lia.
  auto.
Qed.

Lemma setSeconds_parts (t s : Z) :
  0 <= s < 60 ->
  epochDay (setSeconds t s) = epochDay t
  /\ getHours (setSeconds t s) = getHours t
  /\ getMinutes (setSeconds t s) = getMinutes t
  /\ getSeconds (setSeconds t s) = s.
Proof.
  intros Hs. unfold setSeconds.
  pose proof (getHours_range t). pose proof (getMinutes_range t).
  assert (0 <= timeInDay t mod 1000 < 1000) by (apply Z.mod_pos_bound; lia).
  destruct (clock_of_parts (epochDay t) (getHours t) (getMinutes t) s
              (timeInDay t mod 1000))
    as (E1 & E2 & E3 & E4 & _); try assumption.
  replace (t + (s - getSeconds t) * 1000)
    with (epochDay t * msPerDay
          + (getHours t * 3600000 + getMinutes t * 60000 + s * 1000
             + timeInDay t mod 1000))
    by (pose proof (instant_parts t); lia).
  auto.
Qed.

Lemma addDays_parts (t k : Z) :
  epochDay (addDays t (Num k)) = epochDay t + k
  /\ getHours (addDays t (Num k)) = getHours t
  /\ getMinutes (addDays t (Num k)) = getMinutes t
  /\ getSeconds (addDays t (Num k)) = getSeconds t.
Proof.
  unfold addDays.
  pose proof (getHours_range t). pose proof (getMinutes_range t).
  pose proof (getSeconds_range t).
  assert (0 <= timeInDay t mod 1000 < 1000) by (apply Z.mod_pos_bound; lia).
  destruct (clock_of_parts (epochDay t + k) (getHours t) (getMinutes t)
              (getSeconds t) (timeInDay t mod 1000))
    as (E1 & E2 & E3 & E4 & _); try assumption.
  replace (t + k * msPerDay)
    with ((epochDay t + k) * msPerDay
          + (getHours t * 3600000 + getMinutes t * 60000
             + getSeconds t * 1000 + timeInDay t mod 1000))
    by (pose proof (instant_parts t); lia).
  auto.
Qed.

(** [make] builds the date it is given. *)
Lemma civilOf_make (y m d timeOfDay : Z) :
  0 <= m <= 11 -> 1 <= d <= daysInMonth y m ->
  0 <= timeOfDay < msPerDay ->
  civilOf (make y m d timeOfDay) = {| year := y; month := m; day := d |}
  /\ timeInDay (make y m d timeOfDay) = timeOfDay.
Proof.
  intros Hm Hd Ht. unfold civilOf, make.
  rewrite epochDay_add, timeInDay_add by exact Ht. split; [| reflexivity].
  apply (civil_of_days_of {| year := y; month := m; day := d |}).
  split; assumption.
Qed.

End UtcFacts.

Module UtcLaws.

Import Civil CivilFacts UtcFacts.

Lemma orderLaws (now : Z) : OrderLaws (Utc.adapter now).
Proof.
  split; cbn [isBefore isAfter Utc.adapter].
  - intros a b H. apply Z.ltb_lt in H. apply Z.ltb_ge. lia.
  - intros a b c H. apply Z.ltb_lt in H.
    destruct (Z.ltb_spec a b); [left; reflexivity | right].
    apply Z.ltb_lt. lia.
  - reflexivity.
Qed.

Lemma clockLaws (now : Z) : ClockLaws (Utc.adapter now).
Proof.
  split; cbn [getHours getMinutes getSeconds Utc.adapter].
  - exact getHours_range.
  - exact getMinutes_range.
  - exact getSeconds_range.
Qed.

Lemma utcEpochBased (now : Z) : UtcEpochBased (Utc.adapter now).
Proof.
  intros ms H. cbn [toJsDate date Utc.adapter new_Date time_value].
  unfold TimeClip.
  destruct (Z.leb_spec (-8640000000000000) ms),
           (Z.leb_spec ms 8640000000000000); try lia.
  reflexivity.
Qed.

Lemma invalidBeyondDateRange (now : Z) :
  InvalidBeyondDateRange (Utc.adapter now).
Proof.
  intros ms H. cbn [toJsDate date Utc.adapter new_Date time_value].
  unfold TimeClip.
  destruct (Z.leb_spec (-8640000000000000) ms),
           (Z.leb_spec ms 8640000000000000); try lia; reflexivity.
Qed.

Lemma diffOfInstants (now : Z) :
  DiffOfInstants (Utc.adapter now) (fun t => t).
Proof. intros a b. reflexivity. Qed.

Lemma same_day_same_civil (a b : Z) :
  Utc.epochDay a = Utc.epochDay b ->
  Utc.getDate a = Utc.getDate b /\ Utc.getMonth a = Utc.getMonth b
  /\ Utc.getYear a = Utc.getYear b.
Proof.
  unfold Utc.getDate, Utc.getMonth, Utc.getYear, Utc.civilOf.
  intros ->. auto.
Qed.

Lemma calendarLaws (now : Z) :
  CalendarLaws (Utc.adapter now) daysInMonth.
Proof.
  split; intros; rewrite ?dayOfMonth_getDate;
    cbn [getHours getMinutes getSeconds getMonth getYear startOfMonth
           mergeDateAndTime setSeconds addDays Utc.adapter].
  - unfold Utc.getDate. rewrite civilOf_startOfMonth. reflexivity.
  - unfold Utc.getMonth at 1. rewrite civilOf_startOfMonth. reflexivity.
  - unfold Utc.getYear at 1. rewrite civilOf_startOfMonth. reflexivity.
  - f_equal. apply same_day_same_civil, mergeDateAndTime_parts.
  - apply same_day_same_civil, mergeDateAndTime_parts.
  - apply same_day_same_civil, mergeDateAndTime_parts.
  - apply mergeDateAndTime_parts.
  - apply mergeDateAndTime_parts.
  - apply setSeconds_parts; assumption.
  - f_equal. apply same_day_same_civil, setSeconds_parts; assumption.
  - apply same_day_same_civil, setSeconds_parts; assumption.
  - apply same_day_same_civil, setSeconds_parts; assumption.
  - apply setSeconds_parts; assumption.
  - apply setSeconds_parts; assumption.
  - match goal with H : dayOfMonth _ _ = _ |- _ =>
      rewrite dayOfMonth_getDate in H; injection H as H end.
    match goal with H : _ <= daysInMonth _ _ |- _ =>
      cbn [getMonth getYear Utc.adapter] in H end.
    destruct (addDays_parts d k) as (E & Eh & Em & Es).
    unfold Utc.getDate, Utc.getMonth, Utc.getYear, Utc.civilOf in *.
    rewrite E, civil_of_days_forward by lia. simpl.
    subst n. repeat split; assumption.
Qed.

End UtcLaws.

(** ** Properties of the helpers *)

(** C1 (as the code has it).  For [day = 2020-03-01] and
    [minDate = 2020-02-15], [monthDisabledBefore(day, {minDate})] is [false]:
    the previous month is February 2020, the month of [minDate], so the month
    difference is [0] and the test [> 0] fails. *)
Theorem monthDisabledBefore_scenario_false :
  forall now : Z,
    monthDisabledBefore (adapter := Utc.adapter now)
      (Utc.ymd 2020 3 1) (onlyMinDate (Utc.ymd 2020 2 15)) = false.
Proof. intros now. vm_compute. reflexivity. Qed.

(** C1 (as stated, refuted).  On that scenario [monthDisabledBefore] does not
    return [true]. *)
Lemma monthDisabledBefore_scenario_not_true :
  monthDisabledBefore (adapter := Utc.adapter 0)
    (Utc.ymd 2020 3 1) (onlyMinDate (Utc.ymd 2020 2 15)) <> true.
Proof. vm_compute. discriminate. Qed.

(** C2 (the code at the failing input).  With [minDate = 2020-01-10] and
    [includeDates = [2020-01-05]] no include-date is on or after [minDate]:
    [getEffectiveMinDate] reduces the empty filtered array and throws; the
    same happens in [getEffectiveMaxDate] with [maxDate = 2020-01-10] and
    [includeDates = [2020-01-15]]. *)
Theorem getEffectiveMinDate_throws_without_eligible_date :
  forall now : Z,
    getEffectiveMinDate (adapter := Utc.adapter now)
      (minAndInclude (Utc.ymd 2020 1 10) [Utc.ymd 2020 1 5])
    = Throw (TypeError "Reduce of empty array with no initial value")
    /\ getEffectiveMaxDate (adapter := Utc.adapter now)
         (maxAndInclude (Utc.ymd 2020 1 10) [Utc.ymd 2020 1 15])
       = Throw (TypeError "Reduce of empty array with no initial value").
Proof. intros now. split; vm_compute; reflexivity. Qed.

(** C3 (the code at the failing input).  With [minDate] at 12:00 on
    2020-01-10 and include-dates 2020-01-10 and 2020-01-15 at midnight, the
    include-date on the day of [minDate] is the earliest one on or after
    that day, yet [getEffectiveMinDate] returns 2020-01-15: the day
    difference is the millisecond difference over 864e5, negative within the
    day.  With that include-date alone, the filtered array is empty and the
    function throws. *)
Theorem getEffectiveMinDate_skips_the_day_of_minDate :
  forall now : Z,
    getEffectiveMinDate (adapter := Utc.adapter now)
      (minAndInclude (Utc.ymd_hms 2020 1 10 12 0 0)
         [Utc.ymd 2020 1 10; Utc.ymd 2020 1 15])
    = Normal (Utc.ymd 2020 1 15)
    /\ isSameDay (DateIOAdapter := Utc.adapter now)
         (Utc.ymd 2020 1 10) (Utc.ymd_hms 2020 1 10 12 0 0) = true
    /\ isBefore (DateIOAdapter := Utc.adapter now)
         (Utc.ymd 2020 1 10) (Utc.ymd 2020 1 15) = true
    /\ getEffectiveMinDate (adapter := Utc.adapter now)
         (minAndInclude (Utc.ymd_hms 2020 1 10 12 0 0) [Utc.ymd 2020 1 10])
       = Throw (TypeError "Reduce of empty array with no initial value").
Proof. intros now. repeat split; vm_compute; reflexivity. Qed.

(** X20.  When both [minDate] and [includeDates] are given and some
    include-date is at an instant not before that of [minDate],
    [getEffectiveMinDate] returns an include-date at an instant not before
    [minDate] that no such include-date is before; for [minDate] and
    include-dates all at midnight, 2020-01-10 and
    [2020-01-05, 2020-01-15, 2020-01-20], it is 2020-01-15. *)
Theorem getEffectiveMinDate_earliest_eligible :
  forall (T : Type) (adapter : DateIOAdapter T),
    OrderLaws adapter ->
    forall (m : T) (l : list T),
      (exists d, In d l /\ 0 <= getDiff d m) ->
      (exists r,
          getEffectiveMinDate (minAndInclude m l) = Normal r
          /\ In r l /\ 0 <= getDiff r m
          /\ forall d, In d l -> 0 <= getDiff d m -> isBefore d r = false)
      /\ getEffectiveMinDate (adapter := Utc.adapter 0)
           (minAndInclude (Utc.ymd 2020 1 10)
              [Utc.ymd 2020 1 5; Utc.ymd 2020 1 15; Utc.ymd 2020 1 20])
         = Normal (Utc.ymd 2020 1 15).
Proof.
  intros T adapter L m l (d0 & Hin0 & Hd0).
  split; [| vm_compute; reflexivity].
  unfold getEffectiveMinDate, minAndInclude. cbn [includeDates minDate].
  set (eligible := filter _ l).
  assert (forall d, In d eligible <-> In d l /\ 0 <= getDiff d m) as Hel.
  { intros d. unfold eligible. rewrite filter_In.
    rewrite differenceInCalendarDays_nonneg, Z.leb_le. reflexivity. }
  destruct (reduce_pick_leftmost isBefore (isBefore_asym _ L)
              (isBefore_cotrans _ L) eligible)
    as (pre & r & post & Hr & Hl & Hmin & _).
  { intros E. assert (In d0 eligible) as Hin by (apply Hel; auto).
    rewrite E in Hin. contradiction. }
  exists r. split; [exact Hr |].
  assert (In r eligible) as Hrin
    by (rewrite Hl; apply in_or_app; right; left; reflexivity).
  apply Hel in Hrin. destruct Hrin as [Hrl Hrm].
  repeat split; try assumption.
  intros d Hd Hdm. apply Hmin, Hel. auto.
Qed.

Lemma getEffectiveMinDate_earliest_eligible_witness :
  OrderLaws (Utc.adapter 0)
  /\ (exists d, In d [Utc.ymd 2020 1 5; Utc.ymd 2020 1 15]
                /\ 0 <= getDiff (DateIOAdapter := Utc.adapter 0) d
                          (Utc.ymd 2020 1 10))
  /\ ((exists r,
          getEffectiveMinDate (adapter := Utc.adapter 0)
            (minAndInclude (Utc.ymd 2020 1 10)
               [Utc.ymd 2020 1 5; Utc.ymd 2020 1 15]) = Normal r
          /\ In r [Utc.ymd 2020 1 5; Utc.ymd 2020 1 15]
          /\ 0 <= getDiff (DateIOAdapter := Utc.adapter 0) r
                    (Utc.ymd 2020 1 10)
          /\ forall d, In d [Utc.ymd 2020 1 5; Utc.ymd 2020 1 15] ->
                       0 <= getDiff (DateIOAdapter := Utc.adapter 0) d
                              (Utc.ymd 2020 1 10) ->
                       isBefore (DateIOAdapter := Utc.adapter 0) d r = false)
      /\ getEffectiveMinDate (adapter := Utc.adapter 0)
           (minAndInclude (Utc.ymd 2020 1 10)
              [Utc.ymd 2020 1 5; Utc.ymd 2020 1 15; Utc.ymd 2020 1 20])
         = Normal (Utc.ymd 2020 1 15)).
Proof.
  assert (exists d, In d [Utc.ymd 2020 1 5; Utc.ymd 2020 1 15]
                    /\ 0 <= getDiff (DateIOAdapter := Utc.adapter 0) d
                              (Utc.ymd 2020 1 10)) as Hex.
  { exists (Utc.ymd 2020 1 15). split.
    - right. left. reflexivity.
    - vm_compute. discriminate. }
  split; [exact (UtcLaws.orderLaws 0) |].
  split; [exact Hex |].
  exact (getEffectiveMinDate_earliest_eligible Z (Utc.adapter 0)
           (UtcLaws.orderLaws 0) (Utc.ymd 2020 1 10)
           [Utc.ymd 2020 1 5; Utc.ymd 2020 1 15] Hex).
Defined.

Lemma same_time_of_day_order (a b : Z) :
  a mod 86400000 = b mod 86400000 ->
  (a < b <-> a / 86400000 < b / 86400000).
Proof. intros H. Z.div_mod_to_equations. lia. Qed.

(** C4 (the code at the failing input).  At 10:00 on 2020-01-10 with
    [minDate] at 12:00 on the same day, and at 14:00 with [maxDate] at 12:00
    on the same day, [isOutOfBounds] is true although the day is the day of
    the bound: the day difference is the millisecond difference over 864e5,
    which is not zero within the day. *)
Theorem isOutOfBounds_on_the_day_of_a_bound :
  forall now : Z,
    isOutOfBounds (adapter := Utc.adapter now)
      (Utc.ymd_hms 2020 1 10 10 0 0)
      (onlyMinDate (Utc.ymd_hms 2020 1 10 12 0 0)) = true
    /\ isSameDay (DateIOAdapter := Utc.adapter now)
         (Utc.ymd_hms 2020 1 10 10 0 0) (Utc.ymd_hms 2020 1 10 12 0 0) = true
    /\ isOutOfBounds (adapter := Utc.adapter now)
         (Utc.ymd_hms 2020 1 10 14 0 0)
         (onlyMaxDate (Utc.ymd_hms 2020 1 10 12 0 0)) = true
    /\ isSameDay (DateIOAdapter := Utc.adapter now)
         (Utc.ymd_hms 2020 1 10 14 0 0) (Utc.ymd_hms 2020 1 10 12 0 0) = true.
Proof. intros now. repeat split; vm_compute; reflexivity. Qed.

(** X21.  When [getDiff] is the difference of the instants,
    [isOutOfBounds(day, {minDate, maxDate})] is true exactly when [day] is
    at an instant strictly before [minDate] or strictly after [maxDate];
    when the supplied bounds are at the same time of day as [day], that is
    strictly before or after at calendar-day granularity; with
    [minDate = maxDate = d] it is false for a day at the instant of [d] and
    true for a day at any other instant. *)
Theorem isOutOfBounds_by_instant :
  forall (T : Type) (adapter : DateIOAdapter T) (epochMs : T -> Z),
    DiffOfInstants adapter epochMs ->
    forall (day : T) (config : DateBoundsConfig T),
      (isOutOfBounds day config = true
       <-> outsideByInstant epochMs day config)
      /\ (sameTimeOfDay epochMs day config ->
          (isOutOfBounds day config = true
           <-> outsideByCalendarDay epochMs day config))
      /\ (forall d, minDate config = Some d -> maxDate config = Some d ->
            (epochMs day = epochMs d -> isOutOfBounds day config = false)
            /\ (epochMs day <> epochMs d -> isOutOfBounds day config = true)).
Proof.
  intros T adapter epochMs Hdiff day config.
  assert (isOutOfBounds day config = true
          <-> outsideByInstant epochMs day config) as Hinstant.
  { unfold isOutOfBounds, outsideByInstant. rewrite orb_true_iff.
    assert (forall A B C D : Prop, (A <-> C) -> (B <-> D) ->
                                   (A \/ B <-> C \/ D)) as both by tauto.
    apply both.
    - destruct (minDate config) as [m |].
      + rewrite differenceInCalendarDays_neg, Hdiff, Z.ltb_lt. split.
        * intros H. exists m. split; [reflexivity | lia].
        * intros (m' & E & H). injection E as <-. lia.
      + split; [discriminate | intros (m' & E & _); discriminate].
    - destruct (maxDate config) as [M |].
      + rewrite differenceInCalendarDays_pos, Hdiff, Z.ltb_lt. split.
        * intros H. exists M. split; [reflexivity | lia].
        * intros (M' & E & H). injection E as <-. lia.
      + split; [discriminate | intros (M' & E & _); discriminate]. }
  split; [exact Hinstant |]. split.
  - intros Hsame. rewrite Hinstant.
    unfold outsideByInstant, outsideByCalendarDay, calendarDay.
    assert (forall A B C D : Prop, (A <-> C) -> (B <-> D) ->
                                   (A \/ B <-> C \/ D)) as both by tauto.
    apply both.
    + split; intros (m & E & H); exists m; (split; [exact E |]);
        apply (same_time_of_day_order (epochMs day) (epochMs m));
        try exact H; symmetry; apply Hsame; auto.
    + split; intros (M & E & H); exists M; (split; [exact E |]);
        apply (same_time_of_day_order (epochMs M) (epochMs day));
        try exact H; apply Hsame; auto.
  - intros d Hmin Hmax. split.
    + intros E. apply not_true_is_false. rewrite Hinstant.
      unfold outsideByInstant. rewrite Hmin, Hmax.
      intros [(m & Em & H) | (M & EM & H)];
        [injection Em as <- | injection EM as <-]; lia.
    + intros N. apply Hinstant. unfold outsideByInstant.
      rewrite Hmin, Hmax.
      destruct (Z.lt_total (epochMs day) (epochMs d)) as [H | [H | H]].
      * left. exists d. auto.
      * contradiction.
      * right. exists d. auto.
Qed.

Lemma isOutOfBounds_by_instant_witness :
  DiffOfInstants (Utc.adapter 0) (fun t => t)
  /\ sameTimeOfDay (fun t => t) (Utc.ymd 2020 1 9)
       (onlyMinDate (Utc.ymd 2020 1 10))
  /\ (isOutOfBounds (adapter := Utc.adapter 0) (Utc.ymd 2020 1 9)
        (onlyMinDate (Utc.ymd 2020 1 10)) = true
      <-> outsideByInstant (fun t => t) (Utc.ymd 2020 1 9)
            (onlyMinDate (Utc.ymd 2020 1 10)))
  /\ (isOutOfBounds (adapter := Utc.adapter 0) (Utc.ymd 2020 1 9)
        (onlyMinDate (Utc.ymd 2020 1 10)) = true
      <-> outsideByCalendarDay (fun t => t) (Utc.ymd 2020 1 9)
            (onlyMinDate (Utc.ymd 2020 1 10))).
Proof.
  assert (sameTimeOfDay (fun t => t) (Utc.ymd 2020 1 9)
            (onlyMinDate (Utc.ymd 2020 1 10))) as Hsame.
  { intros b [E | E]; [| discriminate].
    injection E as <-. vm_compute. reflexivity. }
  split; [exact (UtcLaws.diffOfInstants 0) |].
  split; [exact Hsame |].
  destruct (isOutOfBounds_by_instant Z (Utc.adapter 0) (fun t => t)
              (UtcLaws.diffOfInstants 0) (Utc.ymd 2020 1 9)
              (onlyMinDate (Utc.ymd 2020 1 10))) as (Hinstant & Hday & _).
  split; [exact Hinstant | exact (Hday Hsame)].
Defined.

(** Strictly before or after at calendar-day granularity is not what the
    code tests: at 10:00 on 2020-01-10 with [minDate] at 12:00 on the same
    day, [isOutOfBounds] is true although the day is not strictly before the
    calendar day of [minDate]. *)
Lemma isOutOfBounds_not_by_calendarDay :
  ~ (isOutOfBounds (adapter := Utc.adapter 0) (Utc.ymd_hms 2020 1 10 10 0 0)
       (onlyMinDate (Utc.ymd_hms 2020 1 10 12 0 0)) = true
     <-> outsideByCalendarDay (fun t => t) (Utc.ymd_hms 2020 1 10 10 0 0)
           (onlyMinDate (Utc.ymd_hms 2020 1 10 12 0 0))).
Proof.
  intros [H _].
  assert (isOutOfBounds (adapter := Utc.adapter 0)
            (Utc.ymd_hms 2020 1 10 10 0 0)
            (onlyMinDate (Utc.ymd_hms 2020 1 10 12 0 0)) = true) as E
    by (vm_compute; reflexivity).
  destruct (H E) as [(m & Em & Hlt) | (M & EM & _)].
  - injection Em as <-. vm_compute in Hlt. discriminate.
  - discriminate.
Qed.

(** C5.  For a day number between 1 and the number of days of the month of
    [date], [setDate(date, dayNumber)] has day of the month [dayNumber] and
    the month, year, hours, minutes and seconds of [date]. *)
Theorem setDate_sets_day_keeps_rest :
  forall (T : Type) (adapter : DateIOAdapter T) (dim : Z -> Z -> Z),
    ClockLaws adapter -> CalendarLaws adapter dim ->
    forall (date : T) (n : Z),
      1 <= n <= dim (getYear date) (getMonth date) ->
      dayOfMonth adapter (setDate date (Num n)) = Num n
      /\ getMonth (setDate date (Num n)) = getMonth date
      /\ getYear (setDate date (Num n)) = getYear date
      /\ getHours (setDate date (Num n)) = getHours date
      /\ getMinutes (setDate date (Num n)) = getMinutes date
      /\ getSeconds (setDate date (Num n)) = getSeconds date.
Proof.
  intros T adapter dim Clock Cal date n Hn.
  pose proof (getSeconds_range _ Clock date) as Hs.
  unfold setDate. cbn [Js.sub].
  set (s0 := startOfMonth date).
  set (s1 := mergeDateAndTime s0 date).
  set (s2 := setSeconds s1 (getSeconds date)).
  assert (dayOfMonth adapter s2 = Num 1) as Hday.
  { unfold s2, s1, s0.
    rewrite (setSeconds_day _ _ Cal), (merge_day _ _ Cal) by exact Hs.
    apply (startOfMonth_day _ _ Cal). }
  assert (getMonth s2 = getMonth date) as Hmonth.
  { unfold s2, s1, s0.
    rewrite (setSeconds_month _ _ Cal), (merge_month _ _ Cal) by exact Hs.
    apply (startOfMonth_month _ _ Cal). }
  assert (getYear s2 = getYear date) as Hyear.
  { unfold s2, s1, s0.
    rewrite (setSeconds_year _ _ Cal), (merge_year _ _ Cal) by exact Hs.
    apply (startOfMonth_year _ _ Cal). }
  assert (getHours s2 = getHours date) as Hhours.
  { unfold s2, s1. rewrite (setSeconds_hours _ _ Cal) by exact Hs.
    apply (merge_hours _ _ Cal). }
  assert (getMinutes s2 = getMinutes date) as Hminutes.
  { unfold s2, s1. rewrite (setSeconds_minutes _ _ Cal) by exact Hs.
    apply (merge_minutes _ _ Cal). }
  assert (getSeconds s2 = getSeconds date) as Hseconds
    by (apply (setSeconds_seconds _ _ Cal); exact Hs).
  destruct (addDays_within_month _ _ Cal s2 1 (n - 1) Hday)
    as (Ed & Em & Ey & Eh & Emi & Es).
  - lia.
  - rewrite Hyear, Hmonth. lia.
  - replace (1 + (n - 1)) with n in Ed by lia.
    rewrite Ed, Em, Ey, Eh, Emi, Es.
    repeat split; assumption.
Qed.

Lemma setDate_sets_day_keeps_rest_witness :
  ClockLaws (Utc.adapter 0)
  /\ CalendarLaws (Utc.adapter 0) Civil.daysInMonth
  /\ 1 <= 29 <= Civil.daysInMonth
                  (getYear (DateIOAdapter := Utc.adapter 0)
                     (Utc.ymd_hms 2020 2 10 13 45 59))
                  (getMonth (DateIOAdapter := Utc.adapter 0)
                     (Utc.ymd_hms 2020 2 10 13 45 59))
  /\ dayOfMonth (Utc.adapter 0)
       (setDate (adapter := Utc.adapter 0)
          (Utc.ymd_hms 2020 2 10 13 45 59) (Num 29)) = Num 29.
Proof.
  assert (1 <= 29 <= Civil.daysInMonth
                       (getYear (DateIOAdapter := Utc.adapter 0)
                          (Utc.ymd_hms 2020 2 10 13 45 59))
                       (getMonth (DateIOAdapter := Utc.adapter 0)
                          (Utc.ymd_hms 2020 2 10 13 45 59))) as Hn
    by (vm_compute; split; discriminate).
  split; [exact (UtcLaws.clockLaws 0) |].
  split; [exact (UtcLaws.calendarLaws 0) |].
  split; [exact Hn |].
  exact (proj1 (setDate_sets_day_keeps_rest Z (Utc.adapter 0)
                  Civil.daysInMonth (UtcLaws.clockLaws 0)
                  (UtcLaws.calendarLaws 0)
                  (Utc.ymd_hms 2020 2 10 13 45 59) 29 Hn)).
Defined.

(** C6.  On a non-empty list [min] returns an element of the list that is
    not after any element, and every element to its left is strictly after
    it, so among equally early elements it is the leftmost; [max] is the
    same with before and after exchanged. *)
Theorem min_max_leftmost_extremum :
  forall (T : Type) (adapter : DateIOAdapter T),
    OrderLaws adapter ->
    forall dates : list T,
      dates <> [] ->
      (exists pre r post,
          min dates = Normal r
          /\ dates = pre ++ r :: post
          /\ (forall x, In x dates -> isAfter r x = false)
          /\ (forall x, In x pre -> isBefore r x = true))
      /\ (exists pre r post,
             max dates = Normal r
             /\ dates = pre ++ r :: post
             /\ (forall x, In x dates -> isBefore r x = false)
             /\ (forall x, In x pre -> isAfter r x = true)).
Proof.
  intros T adapter L dates Hne. split.
  - destruct (reduce_pick_leftmost isBefore (isBefore_asym _ L)
                (isBefore_cotrans _ L) dates Hne)
      as (pre & r & post & Hr & Hl & Hall & Hpre).
    exists pre, r, post. repeat split; try assumption.
    intros x Hx. rewrite (isAfter_converse _ L). exact (Hall x Hx).
  - destruct (reduce_pick_leftmost isAfter) with (l := dates)
      as (pre & r & post & Hr & Hl & Hall & Hpre).
    + intros a b. rewrite !(isAfter_converse _ L).
      apply (isBefore_asym _ L).
    + intros a b c. rewrite !(isAfter_converse _ L). intros H.
      destruct (isBefore_cotrans _ L c b a H); auto.
    + exact Hne.
    + exists pre, r, post. repeat split; try assumption.
      intros x Hx. rewrite <- (isAfter_converse _ L). exact (Hall x Hx).
Qed.

Lemma min_max_leftmost_extremum_witness :
  OrderLaws (Utc.adapter 0)
  /\ [Utc.ymd 2020 1 15; Utc.ymd 2020 1 5; Utc.ymd 2020 1 20;
      Utc.ymd 2020 1 5] <> []
  /\ exists pre r post,
      min (adapter := Utc.adapter 0)
        [Utc.ymd 2020 1 15; Utc.ymd 2020 1 5; Utc.ymd 2020 1 20;
         Utc.ymd 2020 1 5] = Normal r
      /\ [Utc.ymd 2020 1 15; Utc.ymd 2020 1 5; Utc.ymd 2020 1 20;
          Utc.ymd 2020 1 5] = pre ++ r :: post
      /\ (forall x,
             In x [Utc.ymd 2020 1 15; Utc.ymd 2020 1 5; Utc.ymd 2020 1 20;
                   Utc.ymd 2020 1 5] ->
             isAfter (DateIOAdapter := Utc.adapter 0) r x = false)
      /\ (forall x, In x pre ->
                    isBefore (DateIOAdapter := Utc.adapter 0) r x = true).
Proof.
  assert ([Utc.ymd 2020 1 15; Utc.ymd 2020 1 5; Utc.ymd 2020 1 20;
           Utc.ymd 2020 1 5] <> []) as Hne by discriminate.
  split; [exact (UtcLaws.orderLaws 0) |].
  split; [exact Hne |].
  exact (proj1 (min_max_leftmost_extremum Z (Utc.adapter 0)
                  (UtcLaws.orderLaws 0) _ Hne)).
Defined.

(** C7.  If [adapter.date(ms)] reads [ms] as milliseconds since the UTC
    epoch, then for a date with zero seconds
    [secondsToHourMinute(dateToSeconds(d))] is the pair of the hours and the
    minutes of [d]. *)
Theorem secondsToHourMinute_dateToSeconds :
  forall (T : Type) (adapter : DateIOAdapter T),
    ClockLaws adapter -> UtcEpochBased adapter ->
    forall d : T,
      getSeconds d = 0 ->
      secondsToHourMinute (dateToSeconds d)
      = (Num (getHours d), Num (getMinutes d)).
Proof.
  intros T adapter Clock Utc d Hs.
  pose proof (getHours_range _ Clock d) as Hh.
  pose proof (getMinutes_range _ Clock d) as Hm.
  unfold secondsToHourMinute, dateToSeconds, getUTCHours, getUTCMinutes.
  rewrite Hs. unfold HOUR, MINUTE. rewrite Utc by lia.
  set (h := getHours d) in *. set (m := getMinutes d) in *.
  replace ((0 + m * 60 + h * (60 * 60)) * 1000 / 3600000) with h
    by (apply (Z.div_unique _ _ h (m * 60000)); lia).
  replace ((0 + m * 60 + h * (60 * 60)) * 1000 / 60000) with (h * 60 + m)
    by (apply (Z.div_unique _ _ (h * 60 + m) 0); lia).
  f_equal; f_equal.
  - apply Z.mod_small. lia.
  - symmetry. apply (Z.mod_unique _ _ h m); lia.
Qed.

Lemma secondsToHourMinute_dateToSeconds_witness :
  ClockLaws (Utc.adapter 0)
  /\ UtcEpochBased (Utc.adapter 0)
  /\ getSeconds (DateIOAdapter := Utc.adapter 0)
       (Utc.ymd_hms 2020 2 10 13 45 0) = 0
  /\ secondsToHourMinute (adapter := Utc.adapter 0)
       (dateToSeconds (adapter := Utc.adapter 0)
          (Utc.ymd_hms 2020 2 10 13 45 0))
     = (Num (getHours (DateIOAdapter := Utc.adapter 0)
               (Utc.ymd_hms 2020 2 10 13 45 0)),
        Num (getMinutes (DateIOAdapter := Utc.adapter 0)
               (Utc.ymd_hms 2020 2 10 13 45 0))).
Proof.
  assert (getSeconds (DateIOAdapter := Utc.adapter 0)
            (Utc.ymd_hms 2020 2 10 13 45 0) = 0) as Hs
    by (vm_compute; reflexivity).
  split; [exact (UtcLaws.clockLaws 0) |].
  split; [exact (UtcLaws.utcEpochBased 0) |].
  split; [exact Hs |].
  exact (secondsToHourMinute_dateToSeconds Z (Utc.adapter 0)
           (UtcLaws.clockLaws 0) (UtcLaws.utcEpochBased 0)
           (Utc.ymd_hms 2020 2 10 13 45 0) Hs).
Defined.

(** C8.  Without a time, [applyDateToTime] returns its date argument. *)
Theorem applyDateToTime_without_time :
  forall (T : Type) (adapter : DateIOAdapter T) (date : T),
    applyDateToTime None date = date.
Proof. intros T adapter date. reflexivity. Qed.

(** C9.  With neither a bound nor an include-list, [getEffectiveMinDate] and
    [getEffectiveMaxDate] return normally, with the adapter's current date. *)
Theorem getEffective_dates_fall_back_to_now :
  forall (T : Type) (adapter : DateIOAdapter T)
         (bound : option T) (excluded : option (list T))
         (filter : option (T -> bool)),
    getEffectiveMinDate
      {| minDate := None; maxDate := bound; excludeDates := excluded;
         includeDates := None; filterDate := filter |}
    = Normal (date None)
    /\ getEffectiveMaxDate
         {| minDate := bound; maxDate := None; excludeDates := excluded;
            includeDates := None; filterDate := filter |}
       = Normal (date None).
Proof. intros. split; reflexivity. Qed.

(** C10.  With the empty configuration [isDayDisabled] and [isOutOfBounds]
    return the boolean [false] for every day. *)
Theorem nothing_disabled_without_constraints :
  forall (T : Type) (adapter : DateIOAdapter T) (day : T),
    isDayDisabled day emptyConfig = Bool false
    /\ isOutOfBounds day emptyConfig = false.
Proof. intros T adapter day. split; reflexivity. Qed.

(** ** The UTC adapter keeps the further contract *)

Module UtcMoreLaws.
Import Civil CivilFacts UtcFacts.

(** The day and the time of day of a date built by [make], whatever the
    day number. *)
Lemma make_parts (y m d timeOfDay : Z) :
  0 <= timeOfDay < Utc.msPerDay ->
  Utc.epochDay (Utc.make y m d timeOfDay) = days_of_civil y m d
  /\ Utc.timeInDay (Utc.make y m d timeOfDay) = timeOfDay.
Proof.
  intros H. unfold Utc.make.
  rewrite epochDay_add, timeInDay_add by exact H. auto.
Qed.

(** The clock fields only depend on the time of day. *)
Lemma same_time_same_clock (a b : Z) :
  Utc.timeInDay a = Utc.timeInDay b ->
  Utc.getHours a = Utc.getHours b /\ Utc.getMinutes a = Utc.getMinutes b
  /\ Utc.getSeconds a = Utc.getSeconds b.
Proof.
  unfold Utc.getHours, Utc.getMinutes, Utc.getSeconds. intros ->. auto.
Qed.

Lemma civilOf_valid (t : Z) : valid (Utc.civilOf t).
Proof. apply civil_of_days_valid. Qed.

Lemma civilOf_setMonth (t m : Z) :
  Utc.civilOf (Utc.setMonth t m)
  = {| year := Utc.getYear t + m / 12; month := m mod 12;
       day := Z.min (Utc.getDate t)
                (daysInMonth (Utc.getYear t + m / 12) (m mod 12)) |}
  /\ Utc.timeInDay (Utc.setMonth t m) = Utc.timeInDay t.
Proof.
  unfold Utc.setMonth, Utc.getYear, Utc.getDate.
  pose proof (civilOf_valid t) as [_ Hd].
  pose proof (daysInMonth_bounds (year (Utc.civilOf t) + m / 12) (m mod 12)).
  apply civilOf_make.
  - pose proof (Z.mod_pos_bound m 12). lia.
  - lia.
  - apply split_instant.
Qed.

Lemma monthLaws (now : Z) : MonthLaws (Utc.adapter now).
Proof.
  intros t k. unfold monthIndex.
  cbn [getYear getMonth addMonths Utc.adapter].
  unfold Utc.addMonths.
  destruct (civilOf_setMonth t (month (Utc.civilOf t) + k)) as [E _].
  unfold Utc.getYear at 1, Utc.getMonth at 1. rewrite E. cbn [year month].
  unfold Utc.getYear, Utc.getMonth.
  pose proof (Z.div_mod (month (Utc.civilOf t) + k) 12). lia.
Qed.

Lemma sameDayReflexive (now : Z) : SameDayReflexive (Utc.adapter now).
Proof. intros d. apply Z.eqb_refl. Qed.

(** [setYear] lands in the year it is given: the one day that does not
    exist there, 29 February, becomes 1 March of that year. *)
Lemma getYear_setYear (t y : Z) : Utc.getYear (Utc.setYear t y) = y.
Proof.
  unfold Utc.getYear at 1, Utc.civilOf, Utc.setYear.
  destruct (make_parts y (month (Utc.civilOf t)) (day (Utc.civilOf t))
              (Utc.timeInDay t)) as [E _]; [apply split_instant |].
  rewrite E. clear E.
  pose proof (civilOf_valid t) as [Hm Hd].
  destruct (Utc.civilOf t) as [y0 m d]. cbn [year month day] in *.
  destruct (Z.le_gt_cases d (daysInMonth y m)) as [Hle | Hgt].
  - change (days_of_civil y m d)
      with (days_of {| year := y; month := m; day := d |}).
    rewrite civil_of_days_of; [reflexivity |].
    split; cbn [year month day]; lia.
  - assert (m = 1 /\ d = 29 /\ daysInMonth y 1 = 28) as (-> & -> & E).
    { revert Hd Hgt. unfold daysInMonth. split_cases; lia. }
    replace (days_of_civil y 1 29) with (days_of_civil y 1 28 + 1)
      by (unfold days_of_civil; lia).
    rewrite civil_of_days_succ.
    change (days_of_civil y 1 28)
      with (days_of {| year := y; month := 1; day := 28 |}).
    rewrite civil_of_days_of by (split; cbn [year month day]; lia).
    unfold next_day. cbn [year month day]. rewrite E. reflexivity.
Qed.

Lemma timeInDay_setYear (t y : Z) :
  Utc.timeInDay (Utc.setYear t y) = Utc.timeInDay t.
Proof. unfold Utc.setYear. apply make_parts, split_instant. Qed.

Lemma setFieldLaws (now : Z) : SetFieldLaws (Utc.adapter now) daysInMonth.
Proof.
  split; intros;
    cbn [getHours getMinutes getSeconds getMonth getYear setYear setMonth
           Utc.adapter].
  - apply (civilOf_valid d).
  - exists (Utc.getDate d). split; [apply dayOfMonth_getDate |].
    apply (civilOf_valid d).
  - apply getYear_setYear.
  - apply same_time_same_clock, timeInDay_setYear.
  - apply same_time_same_clock, timeInDay_setYear.
  - apply same_time_same_clock, timeInDay_setYear.
  - unfold Utc.getMonth at 1.
    rewrite (proj1 (civilOf_setMonth d m)). cbn [month].
    apply Z.mod_small. lia.
  - unfold Utc.getYear at 1.
    rewrite (proj1 (civilOf_setMonth d m)). cbn [year].
    rewrite Z.div_small by lia. lia.
  - apply same_time_same_clock, civilOf_setMonth.
  - apply same_time_same_clock, civilOf_setMonth.
  - apply same_time_same_clock, civilOf_setMonth.
Qed.

End UtcMoreLaws.

(** ** Further properties of the helpers *)

(** *** Reductions, whatever the comparison *)

Section ReduceAnyOrder.

Context {A : Type} (lt : A -> A -> bool).

Lemma fold_pick_member (rest : list A) :
  forall acc,
    In (fold_left (fun acc x => if lt x acc then x else acc) rest acc)
       (acc :: rest).
Proof.
  induction rest as [| x rest IH]; intros acc; simpl.
  - left. reflexivity.
  - destruct (IH (if lt x acc then x else acc)) as [E | H].
    + destruct (lt x acc); [right; left | left]; exact E.
    + right. right. exact H.
Qed.

Lemma reduce_pick_member (l : list A) (r : A) :
  reduce (fun acc x => if lt x acc then x else acc) l = Normal r ->
  In r l.
Proof.
  destruct l as [| first rest]; simpl; [discriminate |].
  intros E. injection E as <-. apply fold_pick_member.
Qed.

Lemma reduce_throws_iff (f : A -> A -> A) (l : list A) :
  (exists e, reduce f l = Throw e) <-> l = [].
Proof.
  destruct l as [| first rest]; simpl; split.
  - reflexivity.
  - intros _. eexists. reflexivity.
  - intros [e E]. discriminate.
  - discriminate.
Qed.

End ReduceAnyOrder.

Lemma filter_nil_iff {A : Type} (p : A -> bool) (l : list A) :
  filter p l = [] <-> forall x, In x l -> p x = false.
Proof.
  induction l as [| a l IH]; simpl.
  - split; [intros _ x [] | reflexivity].
  - destruct (p a) eqn:E; split.
    + discriminate.
    + intros H. rewrite (H a) in E by (left; reflexivity). discriminate.
    + intros H x [<- | Hx]; [exact E | apply IH; assumption].
    + intros H. apply IH. intros x Hx. apply H. right. exact Hx.
Qed.

(** X1.  [differenceInCalendarMonths] is antisymmetric, vanishes on a date
    and itself, and adds up along a chain of dates. *)
Theorem differenceInCalendarMonths_algebra :
  forall (T : Type) (adapter : DateIOAdapter T) (a b c : T),
    differenceInCalendarMonths a b = - differenceInCalendarMonths b a
    /\ differenceInCalendarMonths a a = 0
    /\ differenceInCalendarMonths a c
       = differenceInCalendarMonths a b + differenceInCalendarMonths b c.
Proof. intros. unfold differenceInCalendarMonths. lia. Qed.

Lemma days_quotient (z : Z) : (inject_Z z / 864e5 == z # 86400000)%Q.
Proof. unfold Qeq, Qdiv, Qmult, Qinv, inject_Z. simpl. lia. Qed.

(** X2.  When [getDiff] is the difference of the instants,
    [differenceInCalendarDays] is antisymmetric, and between two dates at the
    same time of day it is the whole number of calendar days between them. *)
Theorem differenceInCalendarDays_whole_days :
  forall (T : Type) (adapter : DateIOAdapter T) (epochMs : T -> Z),
    DiffOfInstants adapter epochMs ->
    forall a b : T,
      (differenceInCalendarDays a b == - differenceInCalendarDays b a)%Q
      /\ (timeOfDay epochMs a = timeOfDay epochMs b ->
          (differenceInCalendarDays a b
           == inject_Z (calendarDay epochMs a - calendarDay epochMs b))%Q).
Proof.
  intros T adapter epochMs Hdiff a b.
  unfold differenceInCalendarDays. rewrite !Hdiff, !days_quotient. split.
  - unfold Qeq, Qopp. cbn [Qnum Qden]. lia.
  - unfold timeOfDay, calendarDay. intros E.
    assert (epochMs a - epochMs b
            = 86400000 * (epochMs a / 86400000 - epochMs b / 86400000)) as ->
      by (Z.div_mod_to_equations; lia).
    unfold Qeq, inject_Z. cbn [Qnum Qden]. lia.
Qed.

Lemma differenceInCalendarDays_whole_days_witness :
  DiffOfInstants (Utc.adapter 0) (fun t => t)
  /\ timeOfDay (fun t => t) (Utc.ymd 2020 3 1)
     = timeOfDay (fun t => t) (Utc.ymd 2020 2 1)
  /\ (differenceInCalendarDays (adapter := Utc.adapter 0)
        (Utc.ymd 2020 3 1) (Utc.ymd 2020 2 1)
      == inject_Z (calendarDay (fun t => t) (Utc.ymd 2020 3 1)
                   - calendarDay (fun t => t) (Utc.ymd 2020 2 1)))%Q.
Proof.
  assert (timeOfDay (fun t => t) (Utc.ymd 2020 3 1)
          = timeOfDay (fun t => t) (Utc.ymd 2020 2 1)) as E
    by (vm_compute; reflexivity).
  split; [exact (UtcLaws.diffOfInstants 0) |].
  split; [exact E |].
  exact (proj2 (differenceInCalendarDays_whole_days Z (Utc.adapter 0)
                  (fun t => t) (UtcLaws.diffOfInstants 0)
                  (Utc.ymd 2020 3 1) (Utc.ymd 2020 2 1)) E).
Defined.

(** X3.  Whatever the adapter's comparisons do, [min] and [max] throw
    exactly on the empty array, and a date they return is one of the dates
    they were given. *)
Theorem min_max_throw_only_on_empty :
  forall (T : Type) (adapter : DateIOAdapter T) (dates : list T),
    ((exists e, min dates = Throw e) <-> dates = [])
    /\ ((exists e, max dates = Throw e) <-> dates = [])
    /\ (forall r, min dates = Normal r -> In r dates)
    /\ (forall r, max dates = Normal r -> In r dates).
Proof.
  intros T adapter dates. unfold min, max. repeat split.
  - apply reduce_throws_iff.
  - apply reduce_throws_iff.
  - apply reduce_throws_iff.
  - apply reduce_throws_iff.
  - intros r. apply (reduce_pick_member isBefore).
  - intros r. apply (reduce_pick_member isAfter).
Qed.

(** X4.  When the adapter's order is a strict weak order, the date [min]
    returns is never after the date [max] returns. *)
Theorem min_not_after_max :
  forall (T : Type) (adapter : DateIOAdapter T),
    OrderLaws adapter ->
    forall (dates : list T) (lo hi : T),
      min dates = Normal lo -> max dates = Normal hi ->
      isAfter lo hi = false.
Proof.
  intros T adapter L dates lo hi Hlo Hhi.
  assert (dates <> []) as Hne by (intros ->; discriminate).
  destruct (reduce_pick_leftmost isBefore (isBefore_asym _ L)
              (isBefore_cotrans _ L) dates Hne)
    as (pre & r & post & Hr & _ & Hall & _).
  unfold min in Hlo. rewrite Hr in Hlo. injection Hlo as <-.
  rewrite (isAfter_converse _ L). apply Hall.
  apply (reduce_pick_member isAfter). exact Hhi.
Qed.

Lemma min_not_after_max_witness :
  OrderLaws (Utc.adapter 0)
  /\ min (adapter := Utc.adapter 0)
       [Utc.ymd 2020 1 15; Utc.ymd 2020 1 5; Utc.ymd 2020 1 20]
     = Normal (Utc.ymd 2020 1 5)
  /\ max (adapter := Utc.adapter 0)
       [Utc.ymd 2020 1 15; Utc.ymd 2020 1 5; Utc.ymd 2020 1 20]
     = Normal (Utc.ymd 2020 1 20)
  /\ isAfter (DateIOAdapter := Utc.adapter 0)
       (Utc.ymd 2020 1 5) (Utc.ymd 2020 1 20) = false.
Proof.
  assert (min (adapter := Utc.adapter 0)
            [Utc.ymd 2020 1 15; Utc.ymd 2020 1 5; Utc.ymd 2020 1 20]
          = Normal (Utc.ymd 2020 1 5)) as Hlo by (vm_compute; reflexivity).
  assert (max (adapter := Utc.adapter 0)
            [Utc.ymd 2020 1 15; Utc.ymd 2020 1 5; Utc.ymd 2020 1 20]
          = Normal (Utc.ymd 2020 1 20)) as Hhi by (vm_compute; reflexivity).
  split; [exact (UtcLaws.orderLaws 0) |].
  split; [exact Hlo |]. split; [exact Hhi |].
  exact (min_not_after_max Z (Utc.adapter 0) (UtcLaws.orderLaws 0)
           _ _ _ Hlo Hhi).
Defined.

(** X5.  [getEffectiveMinDate] throws exactly when [minDate] and
    [includeDates] are both given and every include-date is before
    [minDate] (an empty [includeDates] included); in every other case it
    returns a date. *)
Theorem getEffectiveMinDate_throws_iff :
  forall (T : Type) (adapter : DateIOAdapter T) (config : DateBoundsConfig T),
    (exists e, getEffectiveMinDate config = Throw e)
    <-> (exists m l, minDate config = Some m /\ includeDates config = Some l
                     /\ forall d, In d l -> getDiff d m < 0).
Proof.
  intros T adapter config. unfold getEffectiveMinDate.
  destruct (includeDates config) as [l |], (minDate config) as [m |].
  - unfold min. rewrite reduce_throws_iff, filter_nil_iff. split.
    + intros H. exists m, l. repeat split. intros d Hd.
      specialize (H d Hd). rewrite differenceInCalendarDays_nonneg in H.
      apply Z.leb_gt in H. exact H.
    + intros (m' & l' & Em & El & H) d Hd.
      injection Em as <-. injection El as <-.
      rewrite differenceInCalendarDays_nonneg. apply Z.leb_gt. auto.
  - split.
    + destruct l; intros [e E]; discriminate.
    + intros (m & l' & Em & _). discriminate.
  - split.
    + intros [e E]. discriminate.
    + intros (m' & l & _ & El & _). discriminate.
  - split.
    + intros [e E]. discriminate.
    + intros (m & l & Em & _). discriminate.
Qed.

(** X6.  [getEffectiveMaxDate] throws exactly when [includeDates] is given
    and either [maxDate] is given and every include-date is after it, or
    [maxDate] is absent and [includeDates] is empty; unlike
    [getEffectiveMinDate], it does not fall back on an empty
    [includeDates]. *)
Theorem getEffectiveMaxDate_throws_iff :
  forall (T : Type) (adapter : DateIOAdapter T) (config : DateBoundsConfig T),
    (exists e, getEffectiveMaxDate config = Throw e)
    <-> (exists l, includeDates config = Some l
                   /\ match maxDate config with
                      | Some M => forall d, In d l -> 0 < getDiff d M
                      | None => l = []
                      end).
Proof.
  intros T adapter config. unfold getEffectiveMaxDate.
  destruct (includeDates config) as [l |], (maxDate config) as [M |].
  - unfold max. rewrite reduce_throws_iff, filter_nil_iff. split.
    + intros H. exists l. split; [reflexivity |]. intros d Hd.
      specialize (H d Hd). rewrite differenceInCalendarDays_nonpos in H.
      apply Z.leb_gt in H. exact H.
    + intros (l' & El & H) d Hd. injection El as <-.
      rewrite differenceInCalendarDays_nonpos. apply Z.leb_gt. auto.
  - unfold max. rewrite reduce_throws_iff. split.
    + intros ->. exists []. auto.
    + intros (l' & El & H). injection El as <-. exact H.
  - split.
    + intros [e E]. discriminate.
    + intros (l & El & _). discriminate.
  - split.
    + intros [e E]. discriminate.
    + intros (l & El & _). discriminate.
Qed.

(** X7.  When both [maxDate] and [includeDates] are given and some
    include-date is at an instant not after that of [maxDate],
    [getEffectiveMaxDate] returns an include-date at an instant not after
    [maxDate] that no such include-date is after (instants are compared by
    the sign of [getDiff], not calendar days). *)
Theorem getEffectiveMaxDate_latest_eligible :
  forall (T : Type) (adapter : DateIOAdapter T),
    OrderLaws adapter ->
    forall (M : T) (l : list T),
      (exists d, In d l /\ getDiff d M <= 0) ->
      exists r,
        getEffectiveMaxDate (maxAndInclude M l) = Normal r
        /\ In r l /\ getDiff r M <= 0
        /\ forall d, In d l -> getDiff d M <= 0 -> isAfter d r = false.
Proof.
  intros T adapter L M l (d0 & Hin0 & Hd0).
  unfold getEffectiveMaxDate, maxAndInclude. cbn [includeDates maxDate].
  set (eligible := filter _ l).
  assert (forall d, In d eligible <-> In d l /\ getDiff d M <= 0) as Hel.
  { intros d. unfold eligible. rewrite filter_In.
    rewrite differenceInCalendarDays_nonpos, Z.leb_le. reflexivity. }
  destruct (reduce_pick_leftmost isAfter) with (l := eligible)
    as (pre & r & post & Hr & Hl & Hmax & _).
  - intros a b. rewrite !(isAfter_converse _ L). apply (isBefore_asym _ L).
  - intros a b c. rewrite !(isAfter_converse _ L). intros H.
    destruct (isBefore_cotrans _ L c b a H); auto.
  - intros E. assert (In d0 eligible) as Hin by (apply Hel; auto).
    rewrite E in Hin. contradiction.
  - exists r. split; [exact Hr |].
    assert (In r eligible) as Hrin
      by (rewrite Hl; apply in_or_app; right; left; reflexivity).
    apply Hel in Hrin. destruct Hrin as [Hrl HrM].
    repeat split; try assumption.
    intros d Hd HdM. apply Hmax, Hel. auto.
Qed.

Lemma getEffectiveMaxDate_latest_eligible_witness :
  OrderLaws (Utc.adapter 0)
  /\ (exists d, In d [Utc.ymd 2020 1 5; Utc.ymd 2020 1 15]
                /\ getDiff (DateIOAdapter := Utc.adapter 0) d
                     (Utc.ymd 2020 1 10) <= 0)
  /\ exists r,
      getEffectiveMaxDate (adapter := Utc.adapter 0)
        (maxAndInclude (Utc.ymd 2020 1 10)
           [Utc.ymd 2020 1 5; Utc.ymd 2020 1 15]) = Normal r
      /\ In r [Utc.ymd 2020 1 5; Utc.ymd 2020 1 15]
      /\ getDiff (DateIOAdapter := Utc.adapter 0) r (Utc.ymd 2020 1 10) <= 0
      /\ forall d, In d [Utc.ymd 2020 1 5; Utc.ymd 2020 1 15] ->
                   getDiff (DateIOAdapter := Utc.adapter 0) d
                     (Utc.ymd 2020 1 10) <= 0 ->
                   isAfter (DateIOAdapter := Utc.adapter 0) d r = false.
Proof.
  assert (exists d, In d [Utc.ymd 2020 1 5; Utc.ymd 2020 1 15]
                    /\ getDiff (DateIOAdapter := Utc.adapter 0) d
                         (Utc.ymd 2020 1 10) <= 0) as Hex.
  { exists (Utc.ymd 2020 1 5). split.
    - left. reflexivity.
    - vm_compute. discriminate. }
  split; [exact (UtcLaws.orderLaws 0) |].
  split; [exact Hex |].
  exact (getEffectiveMaxDate_latest_eligible Z (Utc.adapter 0)
           (UtcLaws.orderLaws 0) (Utc.ymd 2020 1 10)
           [Utc.ymd 2020 1 5; Utc.ymd 2020 1 15] Hex).
Defined.

(** X8.  With a non-empty [includeDates] and no bound,
    [getEffectiveMinDate] returns an include-date that no include-date is
    before, and [getEffectiveMaxDate] one that no include-date is after. *)
Theorem getEffective_dates_of_include_list :
  forall (T : Type) (adapter : DateIOAdapter T),
    OrderLaws adapter ->
    forall l : list T,
      l <> [] ->
      (exists r, getEffectiveMinDate (onlyInclude l) = Normal r
                 /\ In r l /\ forall d, In d l -> isBefore d r = false)
      /\ (exists r, getEffectiveMaxDate (onlyInclude l) = Normal r
                    /\ In r l /\ forall d, In d l -> isAfter d r = false).
Proof.
  intros T adapter L l Hne. split.
  - destruct (reduce_pick_leftmost isBefore (isBefore_asym _ L)
                (isBefore_cotrans _ L) l Hne)
      as (pre & r & post & Hr & Hl & Hall & _).
    exists r. split; [| split; [| exact Hall]].
    + unfold getEffectiveMinDate, onlyInclude. cbn [includeDates minDate].
      destruct l; [congruence | exact Hr].
    + rewrite Hl. apply in_or_app. right. left. reflexivity.
  - destruct (reduce_pick_leftmost isAfter) with (l := l)
      as (pre & r & post & Hr & Hl & Hall & _).
    + intros a b. rewrite !(isAfter_converse _ L). apply (isBefore_asym _ L).
    + intros a b c. rewrite !(isAfter_converse _ L). intros H.
      destruct (isBefore_cotrans _ L c b a H); auto.
    + exact Hne.
    + exists r. split; [exact Hr | split; [| exact Hall]].
      rewrite Hl. apply in_or_app. right. left. reflexivity.
Qed.

Lemma getEffective_dates_of_include_list_witness :
  OrderLaws (Utc.adapter 0)
  /\ [Utc.ymd 2020 1 15; Utc.ymd 2020 1 5] <> []
  /\ exists r,
      getEffectiveMinDate (adapter := Utc.adapter 0)
        (onlyInclude [Utc.ymd 2020 1 15; Utc.ymd 2020 1 5]) = Normal r
      /\ In r [Utc.ymd 2020 1 15; Utc.ymd 2020 1 5]
      /\ forall d, In d [Utc.ymd 2020 1 15; Utc.ymd 2020 1 5] ->
                   isBefore (DateIOAdapter := Utc.adapter 0) d r = false.
Proof.
  assert ([Utc.ymd 2020 1 15; Utc.ymd 2020 1 5] <> []) as Hne
    by discriminate.
  split; [exact (UtcLaws.orderLaws 0) |].
  split; [exact Hne |].
  exact (proj1 (getEffective_dates_of_include_list Z (Utc.adapter 0)
                  (UtcLaws.orderLaws 0) _ Hne)).
Defined.

(** [isOutOfBounds] through the signs of the millisecond differences. *)
Lemma isOutOfBounds_signs {T : Type} {adapter : DateIOAdapter T}
      (day : T) (config : DateBoundsConfig T) :
  isOutOfBounds day config
  = (match minDate config with
     | Some m => getDiff day m <? 0
     | None => false
     end
     || match maxDate config with
        | Some M => 0 <? getDiff day M
        | None => false
        end)%bool.
Proof.
  unfold isOutOfBounds.
  destruct (minDate config), (maxDate config);
    rewrite ?differenceInCalendarDays_neg, ?differenceInCalendarDays_pos;
    reflexivity.
Qed.

(** The [||] chain of [isDayDisabled], operand by operand. *)
Lemma isDayDisabled_boolean :
  forall (T : Type) (adapter : DateIOAdapter T)
         (day : T) (config : DateBoundsConfig T),
    isDayDisabled day config
    = Bool (isOutOfBounds day config
            || match excludeDates config with
               | Some l => existsb (fun e => isSameDay day e) l
               | None => false
               end
            || match includeDates config with
               | Some l => negb (existsb (fun i => isSameDay day i) l)
               | None => false
               end
            || match filterDate config with
               | Some f => negb (f day)
               | None => false
               end).
Proof.
  intros T adapter day [mn mx ex inc f]. unfold isDayDisabled.
  cbn [minDate maxDate excludeDates includeDates filterDate].
  change (isOutOfBounds day
            {| minDate := mn; maxDate := mx; excludeDates := None;
               includeDates := None; filterDate := None |})
    with (isOutOfBounds day
            {| minDate := mn; maxDate := mx; excludeDates := ex;
               includeDates := inc; filterDate := f |}).
  destruct (isOutOfBounds day _); [reflexivity |].
  destruct ex as [ex |]; cbn [and_then orb];
    [destruct (existsb _ ex); [reflexivity |] |];
    (destruct inc as [inc |]; cbn [and_then orb];
     [destruct (existsb _ inc); cbn [negb] |];
     try reflexivity;
     destruct f as [f |]; cbn [and_then orb]; try reflexivity;
     destruct (f day); reflexivity).
Qed.

(** X9.  [isDayDisabled] always returns a boolean, the disjunction of its
    four tests: out of bounds, on the day of an excluded date, on the day of
    no included date, rejected by the filter; an absent list or filter
    counts as a test that fails. *)
Theorem isDayDisabled_is_the_disjunction :
  forall (T : Type) (adapter : DateIOAdapter T)
         (day : T) (config : DateBoundsConfig T),
    isDayDisabled day config
    = Bool (isOutOfBounds day config
            || match excludeDates config with
               | Some l => existsb (fun e => isSameDay day e) l
               | None => false
               end
            || match includeDates config with
               | Some l => negb (existsb (fun i => isSameDay day i) l)
               | None => false
               end
            || match filterDate config with
               | Some f => negb (f day)
               | None => false
               end).
Proof. intros T adapter day config. apply isDayDisabled_boolean. Qed.

(** X10.  A day on the day of an excluded date is disabled whatever else the
    configuration holds; a day that is in bounds, on the day of no excluded
    date, on the day of some included date and accepted by the filter is
    not. *)
Theorem isDayDisabled_excluded_and_included :
  forall (T : Type) (adapter : DateIOAdapter T)
         (day : T) (config : DateBoundsConfig T),
    (forall l e, excludeDates config = Some l -> In e l ->
                 isSameDay day e = true ->
                 isDayDisabled day config = Bool true)
    /\ (isOutOfBounds day config = false ->
        (forall l e, excludeDates config = Some l -> In e l ->
                     isSameDay day e = false) ->
        (forall l, includeDates config = Some l ->
                   exists i, In i l /\ isSameDay day i = true) ->
        (forall f, filterDate config = Some f -> f day = true) ->
        isDayDisabled day config = Bool false).
Proof.
  intros T adapter day config.
  rewrite isDayDisabled_boolean. split.
  - intros l e El Hin Hsame. rewrite El.
    assert (existsb (fun e => isSameDay day e) l = true) as ->
      by (apply existsb_exists; exists e; auto).
    rewrite orb_true_r. reflexivity.
  - intros Hb Hex Hinc Hf. rewrite Hb. f_equal.
    assert (match excludeDates config with
            | Some l => existsb (fun e => isSameDay day e) l
            | None => false
            end = false) as ->.
    { destruct (excludeDates config) as [l |]; [| reflexivity].
      apply not_true_is_false. intros H. apply existsb_exists in H.
      destruct H as (e & Hin & He).
      rewrite (Hex l e eq_refl Hin) in He. discriminate. }
    assert (match includeDates config with
            | Some l => negb (existsb (fun i => isSameDay day i) l)
            | None => false
            end = false) as ->.
    { destruct (includeDates config) as [l |]; [| reflexivity].
      destruct (Hinc l eq_refl) as (i & Hin & Hi).
      apply negb_false_iff, existsb_exists. exists i. auto. }
    destruct (filterDate config) as [f |]; [| reflexivity].
    rewrite (Hf f eq_refl). reflexivity.
Qed.

(** X11.  When every date is on its own day, the date
    [getEffectiveMinDate] returns for a [minDate] and an include-list is
    itself selectable under that configuration, and so is the date
    [getEffectiveMaxDate] returns for a [maxDate] and an include-list. *)
Theorem effective_dates_are_selectable :
  forall (T : Type) (adapter : DateIOAdapter T),
    SameDayReflexive adapter ->
    forall (bound : T) (l : list T) (r : T),
      (getEffectiveMinDate (minAndInclude bound l) = Normal r ->
       isDayDisabled r (minAndInclude bound l) = Bool false)
      /\ (getEffectiveMaxDate (maxAndInclude bound l) = Normal r ->
          isDayDisabled r (maxAndInclude bound l) = Bool false).
Proof.
  intros T adapter Hrefl bound l r.
  rewrite !isDayDisabled_boolean, !isOutOfBounds_signs.
  unfold getEffectiveMinDate, getEffectiveMaxDate, minAndInclude,
    maxAndInclude.
  cbn [minDate maxDate excludeDates includeDates filterDate].
  split; intros H.
  - apply (reduce_pick_member isBefore), filter_In in H.
    destruct H as [Hin Hd].
    rewrite differenceInCalendarDays_nonneg in Hd. apply Z.leb_le in Hd.
    assert ((getDiff r bound <? 0) = false) as -> by (apply Z.ltb_ge; lia).
    assert (existsb (fun i => isSameDay r i) l = true) as ->
      by (apply existsb_exists; exists r; auto).
    reflexivity.
  - apply (reduce_pick_member isAfter), filter_In in H.
    destruct H as [Hin Hd].
    rewrite differenceInCalendarDays_nonpos in Hd. apply Z.leb_le in Hd.
    assert ((0 <? getDiff r bound) = false) as -> by (apply Z.ltb_ge; lia).
    assert (existsb (fun i => isSameDay r i) l = true) as ->
      by (apply existsb_exists; exists r; auto).
    reflexivity.
Qed.

Lemma effective_dates_are_selectable_witness :
  SameDayReflexive (Utc.adapter 0)
  /\ getEffectiveMinDate (adapter := Utc.adapter 0)
       (minAndInclude (Utc.ymd 2020 1 10)
          [Utc.ymd 2020 1 5; Utc.ymd 2020 1 15])
     = Normal (Utc.ymd 2020 1 15)
  /\ isDayDisabled (adapter := Utc.adapter 0) (Utc.ymd 2020 1 15)
       (minAndInclude (Utc.ymd 2020 1 10)
          [Utc.ymd 2020 1 5; Utc.ymd 2020 1 15])
     = Bool false.
Proof.
  assert (getEffectiveMinDate (adapter := Utc.adapter 0)
            (minAndInclude (Utc.ymd 2020 1 10)
               [Utc.ymd 2020 1 5; Utc.ymd 2020 1 15])
          = Normal (Utc.ymd 2020 1 15)) as H by (vm_compute; reflexivity).
  split; [exact (UtcMoreLaws.sameDayReflexive 0) |].
  split; [exact H |].
  exact (proj1 (effective_dates_are_selectable Z (Utc.adapter 0)
                  (UtcMoreLaws.sameDayReflexive 0) (Utc.ymd 2020 1 10)
                  [Utc.ymd 2020 1 5; Utc.ymd 2020 1 15]
                  (Utc.ymd 2020 1 15)) H).
Defined.

(** X12.  When [getDiff] is the difference of the instants, the dates in
    bounds form an interval: a date between two dates in bounds is in
    bounds; and when [minDate] is after [maxDate] every day is out of
    bounds. *)
Theorem isOutOfBounds_interval :
  forall (T : Type) (adapter : DateIOAdapter T) (epochMs : T -> Z),
    DiffOfInstants adapter epochMs ->
    forall config : DateBoundsConfig T,
      (forall a b c,
          isOutOfBounds a config = false -> isOutOfBounds b config = false ->
          epochMs a <= epochMs c <= epochMs b ->
          isOutOfBounds c config = false)
      /\ (forall m M,
             minDate config = Some m -> maxDate config = Some M ->
             epochMs M < epochMs m ->
             forall day, isOutOfBounds day config = true).
Proof.
  intros T adapter epochMs Hdiff config. split.
  - intros a b c. rewrite !isOutOfBounds_signs.
    destruct (minDate config) as [m |], (maxDate config) as [M |];
      rewrite ?Hdiff, !orb_false_iff, ?Z.ltb_ge; intros; lia || auto.
  - intros m M Hm HM Hlt day. rewrite isOutOfBounds_signs, Hm, HM, !Hdiff.
    apply orb_true_iff. rewrite !Z.ltb_lt. lia.
Qed.

Lemma isOutOfBounds_interval_witness :
  DiffOfInstants (Utc.adapter 0) (fun t => t)
  /\ forall m M,
      minDate (minAndMax (Utc.ymd 2020 2 1) (Utc.ymd 2020 1 1)) = Some m ->
      maxDate (minAndMax (Utc.ymd 2020 2 1) (Utc.ymd 2020 1 1)) = Some M ->
      M < m ->
      forall day,
        isOutOfBounds (adapter := Utc.adapter 0) day
          (minAndMax (Utc.ymd 2020 2 1) (Utc.ymd 2020 1 1)) = true.
Proof.
  split; [exact (UtcLaws.diffOfInstants 0) |].
  exact (proj2 (isOutOfBounds_interval Z (Utc.adapter 0) (fun t => t)
                  (UtcLaws.diffOfInstants 0)
                  (minAndMax (Utc.ymd 2020 2 1) (Utc.ymd 2020 1 1)))).
Defined.

(** X13.  With the clock fields in their ranges, [dateToSeconds] is a
    number of seconds within one day, and two dates have the same
    [dateToSeconds] exactly when they agree on hours, minutes and seconds. *)
Theorem dateToSeconds_within_a_day :
  forall (T : Type) (adapter : DateIOAdapter T),
    ClockLaws adapter ->
    forall a b : T,
      0 <= dateToSeconds a < 86400
      /\ (dateToSeconds a = dateToSeconds b
          <-> getHours a = getHours b /\ getMinutes a = getMinutes b
              /\ getSeconds a = getSeconds b).
Proof.
  intros T adapter Clock a b. unfold dateToSeconds, HOUR, MINUTE.
  pose proof (getHours_range _ Clock a). pose proof (getHours_range _ Clock b).
  pose proof (getMinutes_range _ Clock a).
  pose proof (getMinutes_range _ Clock b).
  pose proof (getSeconds_range _ Clock a).
  pose proof (getSeconds_range _ Clock b).
  split; [lia |]. split; [intros E; lia | intros (-> & -> & ->); reflexivity].
Qed.

Lemma dateToSeconds_within_a_day_witness :
  ClockLaws (Utc.adapter 0)
  /\ 0 <= dateToSeconds (adapter := Utc.adapter 0)
            (Utc.ymd_hms 2020 2 10 23 59 59) < 86400.
Proof.
  split; [exact (UtcLaws.clockLaws 0) |].
  exact (proj1 (dateToSeconds_within_a_day Z (Utc.adapter 0)
                  (UtcLaws.clockLaws 0)
                  (Utc.ymd_hms 2020 2 10 23 59 59)
                  (Utc.ymd_hms 2020 2 10 23 59 59))).
Defined.

(** [secondsToHourMinute] on an adapter that reads milliseconds since the
    UTC epoch, for the seconds whose milliseconds a [Date] can hold. *)
Lemma secondsToHourMinute_formula {T : Type} {adapter : DateIOAdapter T} :
  UtcEpochBased adapter ->
  forall seconds : Z,
    -8640000000000 <= seconds <= 8640000000000 ->
    secondsToHourMinute seconds
    = (Num ((seconds / 3600) mod 24), Num ((seconds / 60) mod 60)).
Proof.
  intros Utc seconds Hr.
  unfold secondsToHourMinute, getUTCHours, getUTCMinutes.
  rewrite Utc by lia.
  change 3600000 with (3600 * 1000). change 60000 with (60 * 1000).
  rewrite !Z.div_mul_cancel_r by lia. reflexivity.
Qed.

(** X14.  When [adapter.date(ms)] reads [ms] as milliseconds since the UTC
    epoch, then for seconds whose milliseconds a [Date] can hold (at most
    8.64e12 seconds from the epoch) [secondsToHourMinute] is the hour and the
    minute of the whole seconds and wraps around after a day; with the clock
    fields in range it gives back the hours and minutes of every date from
    its [dateToSeconds], whatever its seconds; and beyond that range, where
    the adapter gives an Invalid Date, it is [[NaN, NaN]]. *)
Theorem secondsToHourMinute_of_any_seconds :
  forall (T : Type) (adapter : DateIOAdapter T),
    UtcEpochBased adapter ->
    forall seconds : Z,
      (-8640000000000 <= seconds <= 8640000000000 ->
       secondsToHourMinute seconds
       = (Num ((seconds / 3600) mod 24), Num ((seconds / 60) mod 60)))
      /\ (-8640000000000 <= seconds ->
          seconds + 86400 <= 8640000000000 ->
          secondsToHourMinute (seconds + 86400)
          = secondsToHourMinute seconds)
      /\ (ClockLaws adapter ->
          forall d : T,
            secondsToHourMinute (dateToSeconds d)
            = (Num (getHours d), Num (getMinutes d)))
      /\ (InvalidBeyondDateRange adapter ->
          seconds < -8640000000000 \/ 8640000000000 < seconds ->
          secondsToHourMinute seconds = (NaN, NaN)).
Proof.
  intros T adapter Utc seconds.
  split; [apply secondsToHourMinute_formula, Utc |]. split; [| split].
  - intros Hlo Hhi.
    rewrite !(secondsToHourMinute_formula Utc) by lia. f_equal; f_equal.
    + replace (seconds + 86400) with (seconds + 24 * 3600) by lia.
      rewrite Z.div_add by lia.
      replace (seconds / 3600 + 24) with (seconds / 3600 + 1 * 24) by lia.
      apply Z.mod_add. lia.
    + replace (seconds + 86400) with (seconds + 1440 * 60) by lia.
      rewrite Z.div_add by lia.
      replace (seconds / 60 + 1440) with (seconds / 60 + 24 * 60) by lia.
      apply Z.mod_add. lia.
  - intros Clock d.
    pose proof (getHours_range _ Clock d) as Hh.
    pose proof (getMinutes_range _ Clock d) as Hm.
    pose proof (getSeconds_range _ Clock d) as Hs.
    rewrite (secondsToHourMinute_formula Utc)
      by (unfold dateToSeconds, HOUR, MINUTE; lia).
    unfold dateToSeconds, HOUR, MINUTE.
    set (h := getHours d) in *. set (m := getMinutes d) in *.
    set (s := getSeconds d) in *.
    replace ((s + m * 60 + h * (60 * 60)) / 3600) with h
      by (apply (Z.div_unique _ _ h (s + m * 60)); lia).
    replace ((s + m * 60 + h * (60 * 60)) / 60) with (h * 60 + m)
      by (apply (Z.div_unique _ _ (h * 60 + m) s); lia).
    f_equal; f_equal.
    + apply Z.mod_small. lia.
    + symmetry. apply (Z.mod_unique _ _ h m); lia.
  - intros Invalid Hout.
    unfold secondsToHourMinute, getUTCHours, getUTCMinutes.
    rewrite Invalid by lia. reflexivity.
Qed.

Lemma secondsToHourMinute_of_any_seconds_witness :
  UtcEpochBased (Utc.adapter 0)
  /\ ClockLaws (Utc.adapter 0)
  /\ InvalidBeyondDateRange (Utc.adapter 0)
  /\ secondsToHourMinute (adapter := Utc.adapter 0)
       (dateToSeconds (adapter := Utc.adapter 0)
          (Utc.ymd_hms 2020 2 10 13 45 59))
     = (Num (getHours (DateIOAdapter := Utc.adapter 0)
               (Utc.ymd_hms 2020 2 10 13 45 59)),
        Num (getMinutes (DateIOAdapter := Utc.adapter 0)
               (Utc.ymd_hms 2020 2 10 13 45 59)))
  /\ secondsToHourMinute (adapter := Utc.adapter 0) 8640000000001
     = (NaN, NaN).
Proof.
  split; [exact (UtcLaws.utcEpochBased 0) |].
  split; [exact (UtcLaws.clockLaws 0) |].
  split; [exact (UtcLaws.invalidBeyondDateRange 0) |].
  split.
  - exact (proj1 (proj2 (proj2 (secondsToHourMinute_of_any_seconds Z
                                  (Utc.adapter 0)
                                  (UtcLaws.utcEpochBased 0) 0)))
             (UtcLaws.clockLaws 0) (Utc.ymd_hms 2020 2 10 13 45 59)).
  - exact (proj2 (proj2 (proj2 (secondsToHourMinute_of_any_seconds Z
                                  (Utc.adapter 0)
                                  (UtcLaws.utcEpochBased 0) 8640000000001)))
             (UtcLaws.invalidBeyondDateRange 0)
             ltac:(right; reflexivity)).
Defined.

(** X15.  When [addMonths] moves the month by the amount,
    [subMonths(date, n)] is [n] calendar months before [date], and adding
    the months back lands in the month of [date]. *)
Theorem subMonths_goes_back :
  forall (T : Type) (adapter : DateIOAdapter T),
    MonthLaws adapter ->
    forall (date : T) (n : Z),
      differenceInCalendarMonths date (subMonths date n) = n
      /\ differenceInCalendarMonths (addMonths (subMonths date n) n) date = 0.
Proof.
  intros T adapter Hm date n.
  assert (forall a b, differenceInCalendarMonths a b
                      = monthIndex adapter a - monthIndex adapter b) as E
    by (intros; unfold differenceInCalendarMonths, monthIndex; lia).
  rewrite !E. unfold subMonths. rewrite !Hm. lia.
Qed.

Lemma subMonths_goes_back_witness :
  MonthLaws (Utc.adapter 0)
  /\ differenceInCalendarMonths (adapter := Utc.adapter 0)
       (Utc.ymd 2020 3 31)
       (subMonths (adapter := Utc.adapter 0) (Utc.ymd 2020 3 31) 13) = 13.
Proof.
  split; [exact (UtcMoreLaws.monthLaws 0) |].
  exact (proj1 (subMonths_goes_back Z (Utc.adapter 0)
                  (UtcMoreLaws.monthLaws 0) (Utc.ymd 2020 3 31) 13)).
Defined.

(** X16.  When [addMonths] moves the month by the amount,
    [monthDisabledBefore] is true exactly when the month of [day] is not
    after the month of [minDate], or not after the month of any include-date;
    [monthDisabledAfter] exactly when the month of [day] is not before the
    month of [maxDate], or not before the month of any include-date. *)
Theorem monthDisabled_by_month :
  forall (T : Type) (adapter : DateIOAdapter T),
    MonthLaws adapter ->
    forall (day : T) (config : DateBoundsConfig T),
      (monthDisabledBefore day config = true
       <-> (exists m, minDate config = Some m
                      /\ monthIndex adapter day <= monthIndex adapter m)
           \/ (exists l, includeDates config = Some l
                         /\ forall d, In d l ->
                              monthIndex adapter day <= monthIndex adapter d))
      /\ (monthDisabledAfter day config = true
          <-> (exists M, maxDate config = Some M
                         /\ monthIndex adapter M <= monthIndex adapter day)
              \/ (exists l, includeDates config = Some l
                            /\ forall d, In d l ->
                                 monthIndex adapter d
                                 <= monthIndex adapter day)).
Proof.
  intros T adapter Hm day config.
  assert (forall a b, differenceInCalendarMonths a b
                      = monthIndex adapter a - monthIndex adapter b) as E
    by (intros; unfold differenceInCalendarMonths, monthIndex; lia).
  assert (forall A B C D : Prop, (A <-> C) -> (B <-> D) ->
                                 (A \/ B <-> C \/ D)) as both by tauto.
  unfold monthDisabledBefore, monthDisabledAfter, subMonths.
  rewrite !orb_false_r, !orb_true_iff. split; apply both.
  - destruct (minDate config) as [m |].
    + rewrite Z.ltb_lt, E, Hm. split.
      * intros H. exists m. split; [reflexivity | lia].
      * intros (m' & Em & H). injection Em as <-. lia.
    + split; [discriminate | intros (m & Em & _); discriminate].
  - destruct (includeDates config) as [l |].
    + rewrite forallb_forall. split.
      * intros H. exists l. split; [reflexivity |]. intros d Hd.
        specialize (H d Hd). rewrite Z.ltb_lt, E, Hm in H. lia.
      * intros (l' & El & H) d Hd. injection El as <-.
        rewrite Z.ltb_lt, E, Hm. specialize (H d Hd). lia.
    + split; [discriminate | intros (l & El & _); discriminate].
  - destruct (maxDate config) as [M |].
    + rewrite Z.ltb_lt, E, Hm. split.
      * intros H. exists M. split; [reflexivity | lia].
      * intros (M' & EM & H). injection EM as <-. lia.
    + split; [discriminate | intros (M & EM & _); discriminate].
  - destruct (includeDates config) as [l |].
    + rewrite forallb_forall. split.
      * intros H. exists l. split; [reflexivity |]. intros d Hd.
        specialize (H d Hd). rewrite Z.ltb_lt, E, Hm in H. lia.
      * intros (l' & El & H) d Hd. injection El as <-.
        rewrite Z.ltb_lt, E, Hm. specialize (H d Hd). lia.
    + split; [discriminate | intros (l & El & _); discriminate].
Qed.

Lemma monthDisabled_by_month_witness :
  MonthLaws (Utc.adapter 0)
  /\ (monthDisabledBefore (adapter := Utc.adapter 0) (Utc.ymd 2020 2 20)
        (onlyMinDate (Utc.ymd 2020 2 15)) = true
      <-> (exists m, minDate (onlyMinDate (Utc.ymd 2020 2 15)) = Some m
                     /\ monthIndex (Utc.adapter 0) (Utc.ymd 2020 2 20)
                        <= monthIndex (Utc.adapter 0) m)
          \/ (exists l, includeDates (onlyMinDate (Utc.ymd 2020 2 15))
                        = Some l
                        /\ forall d, In d l ->
                             monthIndex (Utc.adapter 0) (Utc.ymd 2020 2 20)
                             <= monthIndex (Utc.adapter 0) d)).
Proof.
  split; [exact (UtcMoreLaws.monthLaws 0) |].
  exact (proj1 (monthDisabled_by_month Z (Utc.adapter 0)
                  (UtcMoreLaws.monthLaws 0) (Utc.ymd 2020 2 20)
                  (onlyMinDate (Utc.ymd 2020 2 15)))).
Defined.

(** X17.  With an empty [includeDates] array both [monthDisabledBefore] and
    [monthDisabledAfter] are true for every day, whatever the bounds and
    the adapter: a test over no include-date holds. *)
Theorem monthDisabled_on_empty_include_list :
  forall (T : Type) (adapter : DateIOAdapter T) (day : T)
         (lower upper : option T) (excluded : option (list T))
         (filter : option (T -> bool)),
    monthDisabledBefore day
      {| minDate := lower; maxDate := upper; excludeDates := excluded;
         includeDates := Some []; filterDate := filter |} = true
    /\ monthDisabledAfter day
         {| minDate := lower; maxDate := upper; excludeDates := excluded;
            includeDates := Some []; filterDate := filter |} = true.
Proof.
  intros. unfold monthDisabledBefore, monthDisabledAfter.
  cbn [minDate maxDate includeDates forallb].
  rewrite !orb_true_r. auto.
Qed.

(** *** [setDate] and [applyDateToTime] over the calendar contract *)

Section SetDateFields.

Context {T : Type} {adapter : DateIOAdapter T} (dim : Z -> Z -> Z).
Hypothesis Clock : ClockLaws adapter.
Hypothesis Cal : CalendarLaws adapter dim.

(** The date [setDate] starts counting from: the first of the month, at the
    time of [date]. *)
Lemma setDate_start_fields (date : T) :
  let start :=
    setSeconds (mergeDateAndTime (startOfMonth date) date) (getSeconds date)
  in
  dayOfMonth adapter start = Num 1
  /\ getMonth start = getMonth date /\ getYear start = getYear date
  /\ getHours start = getHours date /\ getMinutes start = getMinutes date
  /\ getSeconds start = getSeconds date.
Proof.
  pose proof (getSeconds_range _ Clock date) as Hs. cbv zeta.
  rewrite (setSeconds_day _ _ Cal), (setSeconds_month _ _ Cal),
    (setSeconds_year _ _ Cal), (setSeconds_hours _ _ Cal),
    (setSeconds_minutes _ _ Cal), (setSeconds_seconds _ _ Cal) by exact Hs.
  rewrite (merge_day _ _ Cal), (merge_month _ _ Cal), (merge_year _ _ Cal),
    (merge_hours _ _ Cal), (merge_minutes _ _ Cal).
  rewrite (startOfMonth_day _ _ Cal), (startOfMonth_month _ _ Cal),
    (startOfMonth_year _ _ Cal).
  repeat split; reflexivity.
Qed.

Lemma setDate_fields (date : T) (n : Z) :
  1 <= n <= dim (getYear date) (getMonth date) ->
  dayOfMonth adapter (setDate date (Num n)) = Num n
  /\ getMonth (setDate date (Num n)) = getMonth date
  /\ getYear (setDate date (Num n)) = getYear date
  /\ getHours (setDate date (Num n)) = getHours date
  /\ getMinutes (setDate date (Num n)) = getMinutes date
  /\ getSeconds (setDate date (Num n)) = getSeconds date.
Proof.
  intros Hn. unfold setDate. cbn [Js.sub].
  destruct (setDate_start_fields date) as (Hd & Hm & Hy & Hh & Hmi & Hs).
  destruct (addDays_within_month _ _ Cal _ 1 (n - 1) Hd)
    as (Ed & Em & Ey & Eh & Emi & Es).
  - lia.
  - rewrite Hy, Hm. lia.
  - replace (1 + (n - 1)) with n in Ed by lia.
    rewrite Ed, Em, Ey, Eh, Emi, Es. repeat split; assumption.
Qed.

End SetDateFields.

(** X18.  Over the calendar contract, a second [setDate] overrides the
    first: [setDate(setDate(date, k), n)] has the day of the month, month,
    year, hours, minutes and seconds of [setDate(date, n)]. *)
Theorem setDate_overrides_setDate :
  forall (T : Type) (adapter : DateIOAdapter T) (dim : Z -> Z -> Z),
    ClockLaws adapter -> CalendarLaws adapter dim ->
    forall (date : T) (k n : Z),
      1 <= k <= dim (getYear date) (getMonth date) ->
      1 <= n <= dim (getYear date) (getMonth date) ->
      dayOfMonth adapter (setDate (setDate date (Num k)) (Num n))
      = dayOfMonth adapter (setDate date (Num n))
      /\ getMonth (setDate (setDate date (Num k)) (Num n))
         = getMonth (setDate date (Num n))
      /\ getYear (setDate (setDate date (Num k)) (Num n))
         = getYear (setDate date (Num n))
      /\ getHours (setDate (setDate date (Num k)) (Num n))
         = getHours (setDate date (Num n))
      /\ getMinutes (setDate (setDate date (Num k)) (Num n))
         = getMinutes (setDate date (Num n))
      /\ getSeconds (setDate (setDate date (Num k)) (Num n))
         = getSeconds (setDate date (Num n)).
Proof.
  intros T adapter dim Clock Cal date k n Hk Hn.
  destruct (setDate_fields dim Clock Cal date k Hk)
    as (_ & Km & Ky & Kh & Kmi & Ks).
  destruct (setDate_fields dim Clock Cal date n Hn)
    as (Nd & Nm & Ny & Nh & Nmi & Ns).
  destruct (setDate_fields dim Clock Cal (setDate date (Num k)) n)
    as (Ed & Em & Ey & Eh & Emi & Es).
  - rewrite Ky, Km. exact Hn.
  - rewrite Ed, Em, Ey, Eh, Emi, Es, Nd, Nm, Ny, Nh, Nmi, Ns.
    repeat split; assumption.
Qed.

Lemma setDate_overrides_setDate_witness :
  ClockLaws (Utc.adapter 0)
  /\ CalendarLaws (Utc.adapter 0) Civil.daysInMonth
  /\ 1 <= 29 <= Civil.daysInMonth
                  (getYear (DateIOAdapter := Utc.adapter 0)
                     (Utc.ymd_hms 2020 2 10 13 45 59))
                  (getMonth (DateIOAdapter := Utc.adapter 0)
                     (Utc.ymd_hms 2020 2 10 13 45 59))
  /\ 1 <= 3 <= Civil.daysInMonth
                 (getYear (DateIOAdapter := Utc.adapter 0)
                    (Utc.ymd_hms 2020 2 10 13 45 59))
                 (getMonth (DateIOAdapter := Utc.adapter 0)
                    (Utc.ymd_hms 2020 2 10 13 45 59))
  /\ dayOfMonth (Utc.adapter 0)
       (setDate (adapter := Utc.adapter 0)
          (setDate (adapter := Utc.adapter 0)
             (Utc.ymd_hms 2020 2 10 13 45 59) (Num 29)) (Num 3))
     = dayOfMonth (Utc.adapter 0)
         (setDate (adapter := Utc.adapter 0)
            (Utc.ymd_hms 2020 2 10 13 45 59) (Num 3)).
Proof.
  assert (forall n, 1 <= n <= 29 ->
            1 <= n <= Civil.daysInMonth
                   (getYear (DateIOAdapter := Utc.adapter 0)
                      (Utc.ymd_hms 2020 2 10 13 45 59))
                   (getMonth (DateIOAdapter := Utc.adapter 0)
                      (Utc.ymd_hms 2020 2 10 13 45 59))) as H.
  { intros n Hn.
    replace (Civil.daysInMonth _ _) with 29 by (vm_compute; reflexivity).
    exact Hn. }
  split; [exact (UtcLaws.clockLaws 0) |].
  split; [exact (UtcLaws.calendarLaws 0) |].
  split; [apply H; lia |]. split; [apply H; lia |].
  exact (proj1 (setDate_overrides_setDate Z (Utc.adapter 0)
                  Civil.daysInMonth (UtcLaws.clockLaws 0)
                  (UtcLaws.calendarLaws 0)
                  (Utc.ymd_hms 2020 2 10 13 45 59) 29 3
                  (H 29 ltac:(lia)) (H 3 ltac:(lia)))).
Defined.

(** X19.  Over the calendar contract, [applyDateToTime(time, date)] with a
    time given has the year, month and day of the month of [date] and the
    hours, minutes and seconds of [time]. *)
Theorem applyDateToTime_takes_day_and_clock :
  forall (T : Type) (adapter : DateIOAdapter T) (dim : Z -> Z -> Z),
    ClockLaws adapter -> CalendarLaws adapter dim ->
    SetFieldLaws adapter dim ->
    forall time date : T,
      dayOfMonth adapter (applyDateToTime (Some time) date)
      = dayOfMonth adapter date
      /\ getMonth (applyDateToTime (Some time) date) = getMonth date
      /\ getYear (applyDateToTime (Some time) date) = getYear date
      /\ getHours (applyDateToTime (Some time) date) = getHours time
      /\ getMinutes (applyDateToTime (Some time) date) = getMinutes time
      /\ getSeconds (applyDateToTime (Some time) date) = getSeconds time.
Proof.
  intros T adapter dim Clock Cal Fields time date.
  unfold applyDateToTime.
  pose proof (getMonth_range _ _ Fields date) as Hm.
  destruct (dayOfMonth_range _ _ Fields date) as (n & En & Hn).
  change (Number (formatByString date "d")) with (dayOfMonth adapter date).
  rewrite En.
  set (monthDate := setMonth (setYear time (getYear date)) (getMonth date)).
  assert (getYear monthDate = getYear date) as Ey
    by (unfold monthDate;
        rewrite (setMonth_year _ _ Fields), (setYear_year _ _ Fields) by exact Hm;
        reflexivity).
  assert (getMonth monthDate = getMonth date) as Emo
    by (unfold monthDate; apply (setMonth_month _ _ Fields); exact Hm).
  destruct (setDate_fields dim Clock Cal monthDate n)
    as (Rd & Rm & Ry & Rh & Rmi & Rs).
  - rewrite Ey, Emo. exact Hn.
  - rewrite Rd, Rm, Ry, Rh, Rmi, Rs, Ey, Emo. unfold monthDate.
    rewrite (setMonth_hours _ _ Fields), (setMonth_minutes _ _ Fields),
      (setMonth_seconds _ _ Fields) by exact Hm.
    rewrite (setYear_hours _ _ Fields), (setYear_minutes _ _ Fields),
      (setYear_seconds _ _ Fields).
    repeat split; reflexivity.
Qed.

Lemma applyDateToTime_takes_day_and_clock_witness :
  ClockLaws (Utc.adapter 0)
  /\ CalendarLaws (Utc.adapter 0) Civil.daysInMonth
  /\ SetFieldLaws (Utc.adapter 0) Civil.daysInMonth
  /\ dayOfMonth (Utc.adapter 0)
       (applyDateToTime (adapter := Utc.adapter 0)
          (Some (Utc.ymd_hms 2019 1 31 13 45 59)) (Utc.ymd 2020 2 29))
     = dayOfMonth (Utc.adapter 0) (Utc.ymd 2020 2 29).
Proof.
  split; [exact (UtcLaws.clockLaws 0) |].
  split; [exact (UtcLaws.calendarLaws 0) |].
  split; [exact (UtcMoreLaws.setFieldLaws 0) |].
  exact (proj1 (applyDateToTime_takes_day_and_clock Z (Utc.adapter 0)
                  Civil.daysInMonth (UtcLaws.clockLaws 0)
                  (UtcLaws.calendarLaws 0) (UtcMoreLaws.setFieldLaws 0)
                  (Utc.ymd_hms 2019 1 31 13 45 59) (Utc.ymd 2020 2 29))).
Defined.
